(** * PipCal webhook relay: lead-to-call correlation and call-outcome
      reconciliation

    A shallow embedding of the Go service of [api/services.go],
    [api/handlers.go], [api/config.go] and [api/models.go]: the correlation
    store ([callMappings]), the lead-created processor
    ([ProcessPipedriveLead]), the call-analyzed processor
    ([ProcessRetellCallAnalyzed]) and the lead webhook handler.

    Go strings are byte strings ([string]); Go [int] and [int64] values are
    [Z]; the map of call mappings is a [gmap]; the HTTP client, the clock,
    the JSON decoders and [time.Format] make up the environment [Env] that
    every function of the service takes. *)

From Stdlib Require Import ZArith String Ascii List DecimalString DecimalPos.
From stdpp Require Import gmap strings.

Local Open Scope string_scope.
Local Open Scope list_scope.
Local Open Scope Z_scope.

(** ** Go's [strings] and [strconv] helpers used by the service *)

Module strings.

(** [strings.ReplaceAll(s, old, new)] for a one-byte pattern [old]: every
    occurrence of the byte is replaced by [new]. *)
Fixpoint ReplaceAll (s : string) (old : ascii) (new : string) : string :=
  match s with
  | EmptyString => EmptyString
  | String a s' =>
      if Ascii.eqb a old then new +:+ ReplaceAll s' old new
      else String a (ReplaceAll s' old new)
  end.

(** [strings.HasPrefix(s, prefix)]. *)
Definition HasPrefix (s pre : string) : bool := String.prefix pre s.

(** [strings.Contains(s, substr)]. *)
Fixpoint Contains (s sub : string) : bool :=
  String.prefix sub s ||
  match s with
  | EmptyString => false
  | String _ s' => Contains s' sub
  end.

End strings.

Module strconv.

Definition minInt : Z := - 2 ^ 63.
Definition maxInt : Z := 2 ^ 63 - 1.

(** The values of Go's 64-bit [int]. *)
Definition isInt (z : Z) : bool := (minInt <=? z) && (z <=? maxInt).

(** [strconv.FormatInt(z, 10)], also [fmt.Sprintf("%d", z)]. *)
Definition FormatInt (z : Z) : string := NilZero.string_of_int (Z.to_int z).

(** [strconv.Atoi]: an optional sign, at least one decimal digit, and a
    value that fits an [int]; [None] stands for the returned error. *)
Definition Atoi (s : string) : option Z :=
  let parsed :=
    match s with
    | EmptyString => None
    | String c s' =>
        if Ascii.eqb c "+" then
          option_map Z.of_uint (NilZero.uint_of_string s')
        else if Ascii.eqb c "-" then
          option_map (fun d => - Z.of_uint d) (NilZero.uint_of_string s')
        else option_map Z.of_uint (NilZero.uint_of_string s)
    end in
  match parsed with
  | Some z => if isInt z then Some z else None
  | None => None
  end.

(** [fmt.Sprintf("%02d", z)]: zero padding up to width two. *)
Definition pad2 (z : Z) : string :=
  if (0 <=? z) && (z <? 10) then "0" +:+ FormatInt z else FormatInt z.

(** [fmt.Sprintf("%t", b)]. *)
Definition FormatBool (b : bool) : string := if b then "true" else "false".

End strconv.

(** ** Data model ([api/models.go], [api/config.go], [api/services.go]) *)

Record Config := {
  PipedriveAPIKey : string;
  PipedriveBaseURL : string;
  RetellAPIKey : string;
  RetellAssistantID : string;
  RetellBaseURL : string;
  RetellFromNumber : string
}.

Definition nonEmpty (s : string) : bool :=
  match s with EmptyString => false | _ => true end.

Definition HasPipedriveConfig (c : Config) : bool :=
  nonEmpty (PipedriveAPIKey c).

Definition HasRetellConfig (c : Config) : bool :=
  nonEmpty (RetellAPIKey c) && nonEmpty (RetellAssistantID c).

(** [time.Time], as seconds since the Unix epoch. *)
Definition Time := Z.

Record CallMapping := {
  PersonName : string;
  PhoneNumber : string;
  LeadTitle : string;
  PersonID : Z;
  Timestamp : Time
}.

Record PipedrivePhone := {
  Label : string;
  Value : string;
  Primary : bool
}.

Record PipedrivePerson := {
  ID : Z;
  Name : string;
  Email : list PipedrivePhone;
  Phone : list PipedrivePhone
}.

(** The method [(p *PipedriveService) extractPhoneFromPerson]; a nil slice
    and an empty slice are both [[]]. *)
Definition extractPhoneFromPerson (person : PipedrivePerson) : string :=
  match Phone person with
  | ph :: _ =>
      let phoneNumber := Value ph in
      let phoneNumber := strings.ReplaceAll phoneNumber " " "" in
      let phoneNumber := strings.ReplaceAll phoneNumber "-" "" in
      let phoneNumber := strings.ReplaceAll phoneNumber "(" "" in
      let phoneNumber := strings.ReplaceAll phoneNumber ")" "" in
      if negb (strings.HasPrefix phoneNumber "+") then
        "+1" +:+ phoneNumber
      else if strings.HasPrefix phoneNumber "1"
                && negb (strings.HasPrefix phoneNumber "+1") then
        "+" +:+ phoneNumber
      else phoneNumber
  | [] => ""
  end.

Record PipedrivePersonResponse := {
  person_Success : bool;
  person_Data : option PipedrivePerson
}.

Record PipedrivePersonSearchResponse := {
  search_Success : bool;
  search_Data : option PipedrivePerson;
  search_Items : list PipedrivePerson
}.

Record PipedriveActivity := {
  activity_ID : Z;
  activity_Subject : string
}.

Record PipedriveActivityResponse := {
  activity_Success : bool;
  activity_Data : option PipedriveActivity
}.

Record RetellCallResponse := {
  CallID : string;
  Status : string
}.

Record Contact := {
  contact_ID : string;
  contact_Name : string;
  contact_Email : string;
  contact_Phone : string;
  DNC : bool
}.

(** The fields of [PipedriveLeadWebhookPayload] that the service reads. *)
Record PipedriveLeadWebhookPayload := {
  Data_ID : string;
  Data_Title : string;
  Data_PersonID : Z;
  Meta_Action : string
}.

Record CallAnalysis := {
  CallSummary : string;
  InVoicemail : bool;
  UserSentiment : string;
  CallSuccessful : bool
}.

(** The fields of [RetellCallAnalyzedPayload] that the service reads. *)
Record RetellCallAnalyzedPayload := {
  Event : string;
  Call_CallID : string;
  Call_CallType : string;
  Call_AgentVersion : Z;
  Call_AgentName : string;
  Call_CallStatus : string;
  Call_StartTimestamp : Z;
  Call_EndTimestamp : Z;
  Call_DurationMs : Z;
  Call_Transcript : string;
  Call_DisconnectionReason : string;
  Call_CallAnalysis : CallAnalysis;
  Call_RecordingURL : string;
  Call_RecordingMultiChannelURL : string;
  Call_PublicLogURL : string
}.

(** JSON values, for the bodies the service marshals
    ([map[string]interface{}] literals keep the order of the source). *)
#[local] Unset Elimination Schemes.
Inductive JSON :=
| JNull
| JBool (b : bool)
| JString (s : string)
| JNumber (z : Z)
| JArray (l : list JSON)
| JObject (fields : list (string * JSON)).
#[local] Set Elimination Schemes.

Fixpoint lookupField (k : string) (fields : list (string * JSON)) : option JSON :=
  match fields with
  | [] => None
  | (k', v) :: rest => if String.eqb k k' then Some v else lookupField k rest
  end.

Definition field (k : string) (body : option JSON) : option JSON :=
  match body with
  | Some (JObject fields) => lookupField k fields
  | _ => None
  end.

(** [WebhookResponse] together with the HTTP status given to [c.JSON]. *)
Record WebhookResponse := {
  StatusCode : Z;
  Success : bool;
  Message : string;
  Data : list (string * JSON)
}.

(** ** The outside world: HTTP, clock, JSON decoding *)

Record Request := {
  method : string;
  url : string;
  headers : list (string * string);
  body : option JSON
}.

(** What [httpClient.Do] gives for a request: an error, or a response
    whose body [io.ReadAll] reads (possibly with an error). *)
Inductive HttpResult :=
| DoError (e : string)
| Response (status : Z) (bytes : string) (readErr : option string).

(** The result of [json.Decode] / [json.Unmarshal] into a value. *)
Inductive Decoded (A : Type) :=
| Parsed (a : A)
| Malformed (e : string).
Arguments Parsed {A} a.
Arguments Malformed {A} e.

Record PipedriveService := {
  config : Config;
  callMappings : gmap string CallMapping
}.

(** The state a request runs in: the service, the requests handed to the
    HTTP client so far (oldest first), and the number of readings of the
    clock and of the UUID source so far. *)
Record World := {
  service : PipedriveService;
  sent : list Request;
  ticks : nat
}.

(** How a Go call ends: a value with a nil error, a non-nil error, or a
    run-time panic (a nil pointer dereference). *)
Inductive Outcome (A : Type) :=
| Ok (a : A)
| Err (e : string)
| Panic.
Arguments Ok {A} a.
Arguments Err {A} e.
Arguments Panic {A}.

Definition Go (A : Type) : Type := World -> Outcome A * World.

Definition ret {A} (a : A) : Go A := fun w => (Ok a, w).

Definition bind {A B} (m : Go A) (k : A -> Go B) : Go B :=
  fun w =>
    match m w with
    | (Ok a, w') => k a w'
    | (Err e, w') => (Err e, w')
    | (Panic, w') => (Panic, w')
    end.

Definition fail {A} (e : string) : Go A := fun w => (Err e, w).

Definition panic {A} : Go A := fun w => (Panic, w).

(** [v, err := f(...)]: the error becomes a value the caller inspects. *)
Definition attempt {A} (m : Go A) : Go (A + string) :=
  fun w =>
    match m w with
    | (Ok a, w') => (Ok (inl a), w')
    | (Err e, w') => (Ok (inr e), w')
    | (Panic, w') => (Panic, w')
    end.

(** [if err != nil { return fmt.Errorf(prefix + "%v", err) }]. *)
Definition wrap {A} (pre : string) (m : Go A) : Go A :=
  fun w =>
    match m w with
    | (Err e, w') => (Err (pre +:+ e), w')
    | r => r
    end.

Notation "'let*' x ':=' m 'in' k" := (bind m (fun x => k))
  (at level 10, x pattern, m at level 100, k at level 200).

Definition getConfig : Go Config := fun w => (Ok (config (service w)), w).

Definition getMappings : Go (gmap string CallMapping) :=
  fun w => (Ok (callMappings (service w)), w).

Definition setMappings (m : gmap string CallMapping) : Go unit :=
  fun w =>
    (Ok tt, {| service := {| config := config (service w); callMappings := m |};
               sent := sent w; ticks := ticks w |}).

Definition getSent : Go (list Request) := fun w => (Ok (sent w), w).

Definition sentMore (req : Request) : Go unit :=
  fun w =>
    (Ok tt, {| service := service w; sent := sent w ++ [req]; ticks := ticks w |}).

Definition tick : Go nat :=
  fun w =>
    (Ok (ticks w), {| service := service w; sent := sent w; ticks := S (ticks w) |}).

Definition nl : string := String (ascii_of_nat 10) EmptyString.

(** The request [makePipedriveRequest] builds: the API token goes into the
    query string. *)
Definition pipedriveRequest (cfg : Config) (method endpoint : string)
  (body : option JSON) : Request :=
  let separator := if strings.Contains endpoint "?" then "&" else "?" in
  let url := PipedriveBaseURL cfg +:+ endpoint +:+ separator
             +:+ "api_token=" +:+ PipedriveAPIKey cfg in
  {| method := method; url := url;
     headers := [("Content-Type", "application/json");
                 ("Accept", "application/json")];
     body := body |}.

(** [RetellCallRequest] as [CreateRetellCall] fills and marshals it. *)
Definition retellCallRequest (cfg : Config) (phoneNumber personName leadTitle : string)
  : JSON :=
  JObject [("from_number", JString (RetellFromNumber cfg));
           ("to_number", JString phoneNumber);
           ("assistant_id", JString (RetellAssistantID cfg));
           ("max_duration_seconds", JNumber 300);
           ("dynamic_variables",
            JObject [("person_name", JString personName);
                     ("lead_title", JString leadTitle)])].

(** The request [CreateRetellCall] builds. *)
Definition retellRequest (cfg : Config) (phoneNumber personName leadTitle : string)
  : Request :=
  {| method := "POST";
     url := RetellBaseURL cfg +:+ "/v2/create-phone-call";
     headers := [("Content-Type", "application/json");
                 ("Authorization", "Bearer " +:+ RetellAPIKey cfg)];
     body := Some (retellCallRequest cfg phoneNumber personName leadTitle) |}.

(** The environment of the service: everything it calls that is not its
    own code. *)
Record Env := {
  (** [http.NewRequest]: the error it returns for a method or URL it
      refuses *)
  newRequestError : Request -> option string;
  (** the HTTP client: its answer to a request, given the requests it was
      handed before *)
  transport : list Request -> Request -> HttpResult;
  (** [time.Now()] at the n-th reading, and [uuid.New().String()] *)
  clock : nat -> Time;
  uuid : nat -> string;
  (** [t.Format(layout)] in the server's time zone *)
  formatTime : string -> Time -> string;
  (** [encoding/json] on the bodies received *)
  decodePerson : string -> Decoded PipedrivePersonResponse;
  decodeSearch : string -> Decoded PipedrivePersonSearchResponse;
  decodeActivity : string -> Decoded PipedriveActivityResponse;
  decodeRetell : string -> Decoded RetellCallResponse;
  decodeObject : string -> Decoded (list (string * JSON));
  (** [c.ShouldBindJSON(&payload)] on the body of the lead webhook *)
  bindLead : string -> Decoded PipedriveLeadWebhookPayload;
  (** the text of the error [strconv.Atoi] returns for a string *)
  atoiError : string -> string
}.

Section Service.

Variable env : Env.

Definition timeNow : Go Time :=
  let* n := tick in ret (clock env n).

Definition newUUID : Go string :=
  let* n := tick in ret (uuid env n).

(** [httpClient.Do(req)]. *)
Definition Do (req : Request) : Go HttpResult :=
  let* history := getSent in
  let* _ := sentMore req in
  ret (transport env history req).

(** [makePipedriveRequest]; the bodies given to it are maps of strings
    and integers, which [json.Marshal] never refuses. The result is the
    status code and the body as read. *)
Definition makePipedriveRequest (method endpoint : string) (body : option JSON)
  : Go (Z * string) :=
  let* cfg := getConfig in
  let req := pipedriveRequest cfg method endpoint body in
  match newRequestError env req with
  | Some e => fail ("failed to create request: " +:+ e)
  | None =>
      let* r := Do req in
      match r with
      | DoError e => fail ("failed to make request: " +:+ e)
      | Response status bytes _ => ret (status, bytes)
      end
  end.

(** [GetPersonByID]; [result.Data] may be nil. *)
Definition GetPersonByID (personID : Z) : Go (option PipedrivePerson) :=
  let endpoint := "/persons/" +:+ strconv.FormatInt personID in
  let* resp := makePipedriveRequest "GET" endpoint None in
  let '(status, bytes) := resp in
  if negb (status =? 200) then
    fail ("failed to get person: HTTP " +:+ strconv.FormatInt status)
  else
    match decodePerson env bytes with
    | Malformed e => fail e
    | Parsed result =>
        if negb (person_Success result) then fail "failed to get person"
        else ret (person_Data result)
    end.

Definition CreateRetellCall (phoneNumber personName leadTitle : string) : Go string :=
  let* cfg := getConfig in
  if negb (nonEmpty (RetellAPIKey cfg)) || negb (nonEmpty (RetellAssistantID cfg)) then
    fail "Retell AI not configured: missing API key or assistant ID"
  else
    let req := retellRequest cfg phoneNumber personName leadTitle in
    match newRequestError env req with
    | Some e => fail ("failed to create request: " +:+ e)
    | None =>
        let* r := Do req in
        match r with
        | DoError e => fail ("failed to make Retell AI request: " +:+ e)
        | Response _ _ (Some e) => fail ("failed to read response body: " +:+ e)
        | Response status bytes None =>
            if (status =? 200) || (status =? 201) then
              match decodeRetell env bytes with
              | Malformed err =>
                  match decodeObject env bytes with
                  | Parsed responseMap =>
                      match lookupField "call_id" responseMap with
                      | Some (JString callID) => ret callID
                      | _ =>
                          match lookupField "id" responseMap with
                          | Some (JString callID) => ret callID
                          | _ => fail ("failed to parse Retell AI response: " +:+ err)
                          end
                      end
                  | Malformed _ => fail ("failed to parse Retell AI response: " +:+ err)
                  end
              | Parsed callResponse => ret (CallID callResponse)
              end
            else
              fail ("Retell AI call failed: HTTP " +:+ strconv.FormatInt status
                    +:+ ", Response: " +:+ bytes)
        end
    end.

Definition storeCallMapping (callID personName phoneNumber leadTitle : string)
  (personID : Z) : Go unit :=
  let* now := timeNow in
  let* m := getMappings in
  setMappings (<[callID := {| PersonName := personName;
                              PhoneNumber := phoneNumber;
                              LeadTitle := leadTitle;
                              PersonID := personID;
                              Timestamp := now |}]> m).

(** The zero [time.Time] (January 1, year 1) and the zero [CallMapping]
    that a map read gives for a missing key. *)
Definition zeroTime : Time := -62135596800.

Definition zeroCallMapping : CallMapping :=
  {| PersonName := ""; PhoneNumber := ""; LeadTitle := ""; PersonID := 0;
     Timestamp := zeroTime |}.

Definition getCallMapping (callID : string) : Go (CallMapping * bool) :=
  let* m := getMappings in
  match m !! callID with
  | Some mapping => ret (mapping, true)
  | None => ret (zeroCallMapping, false)
  end.

Definition leadActivityData (payload : PipedriveLeadWebhookPayload)
  (callID phoneNumber : string) (dueDate dueTime : Time) : JSON :=
  JObject [("subject", JString ("AI Call Initiated - Lead: " +:+ Data_Title payload));
           ("type", JString "call");
           ("person_id", JNumber (Data_PersonID payload));
           ("note", JString ("Retell AI call initiated for lead: " +:+ Data_Title payload
                             +:+ nl +:+ "Call ID: " +:+ callID
                             +:+ nl +:+ "Phone: " +:+ phoneNumber));
           ("done", JNumber 0);
           ("due_date", JString (formatTime env "2006-01-02" dueDate));
           ("due_time", JString (formatTime env "15:04:05" (dueTime + 5 * 60)))].

Definition ProcessPipedriveLead (payload : PipedriveLeadWebhookPayload) : Go unit :=
  let* cfg := getConfig in
  if negb (String.eqb (Meta_Action payload) "create") then ret tt
  else if HasPipedriveConfig cfg && HasRetellConfig cfg then
    let* fetched := wrap "failed to get person details: "
                      (GetPersonByID (Data_PersonID payload)) in
    match fetched with
    | None => panic
    | Some person =>
        let phoneNumber := extractPhoneFromPerson person in
        if negb (nonEmpty phoneNumber) then ret tt
        else
          let* created := attempt (CreateRetellCall phoneNumber (Name person)
                                     (Data_Title payload)) in
          let* callID :=
            match created with
            | inr _ =>
                let* now := timeNow in
                ret ("failed-" +:+ strconv.FormatInt now)
            | inl callID => ret callID
            end in
          let* _ := storeCallMapping callID (Name person) phoneNumber
                      (Data_Title payload) (Data_PersonID payload) in
          let* dueDate := timeNow in
          let* dueTime := timeNow in
          let activityData :=
            leadActivityData payload callID phoneNumber dueDate dueTime in
          let* _ := attempt (makePipedriveRequest "POST" "/activities"
                               (Some activityData)) in
          ret tt
    end
  else ret tt.

(** The custom fields of a person that hold the transcript, the call
    duration and the call date. *)
Definition callDataFields (transcript duration date : string) : JSON :=
  JObject [("b4073939104c3d1283e703c3b3e9fb261a16b137", JString transcript);
           ("22d4bfd3fc0227ef6f8a594346c30545b069d5fd", JString duration);
           ("80347870cd9400fbc1a1d03bd082df463321bad5", JString date)].

Definition UpdatePersonWithCallData (personID : Z) (transcript duration date : string)
  : Go unit :=
  let updateData := callDataFields transcript duration date in
  let endpoint := "/persons/" +:+ strconv.FormatInt personID in
  let* resp := wrap "failed to update person with call data: "
                 (makePipedriveRequest "PUT" endpoint (Some updateData)) in
  let '(status, _) := resp in
  if negb (status =? 200) then
    fail ("failed to update person: HTTP " +:+ strconv.FormatInt status)
  else ret tt.

(** The body [FindOrCreateContactByPhone] posts to create a contact. *)
Definition unknownCallerData (phone : string) : JSON :=
  JObject [("name", JString "Unknown Caller");
           ("phone", JArray [JObject [("value", JString phone)]])].

Definition contactOfPerson (person : PipedrivePerson) : Contact :=
  let phone := match Phone person with ph :: _ => Value ph | [] => "" end in
  let email := match Email person with em :: _ => Value em | [] => "" end in
  {| contact_ID := strconv.FormatInt (ID person);
     contact_Name := Name person;
     contact_Email := email;
     contact_Phone := phone;
     DNC := false |}.

Definition FindOrCreateContactByPhone (phone : string) : Go Contact :=
  let* cfg := getConfig in
  if HasPipedriveConfig cfg then
    let searchEndpoint := "/persons/search?term=" +:+ phone +:+ "&fields=phone" in
    let* resp := wrap "failed to search contact: "
                   (makePipedriveRequest "GET" searchEndpoint None) in
    match decodeSearch env (snd resp) with
    | Malformed e => fail ("failed to decode search response: " +:+ e)
    | Parsed searchResult =>
        match search_Success searchResult, search_Items searchResult with
        | true, person :: _ => ret (contactOfPerson person)
        | _, _ =>
            let createData := unknownCallerData phone in
            let* resp := wrap "failed to create contact: "
                           (makePipedriveRequest "POST" "/persons" (Some createData)) in
            match decodePerson env (snd resp) with
            | Malformed e => fail ("failed to decode create response: " +:+ e)
            | Parsed createResult =>
                match person_Success createResult, person_Data createResult with
                | true, Some person => ret (contactOfPerson person)
                | _, _ => fail "failed to create contact in Pipedrive"
                end
            end
        end
    end
  else
    let* id := newUUID in
    ret {| contact_ID := id; contact_Name := "Unknown Caller"; contact_Email := "";
           contact_Phone := phone; DNC := false |}.

Definition buildCallAnalyzedNote (payload : RetellCallAnalyzedPayload)
  (startTime endTime : Time) (duration : string) : string :=
  "AI Call Analysis Report

Call Details:
• Call ID: " +:+ Call_CallID payload +:+ "
• Agent: " +:+ Call_AgentName payload
    +:+ " (v" +:+ strconv.FormatInt (Call_AgentVersion payload) +:+ ")
• Type: " +:+ Call_CallType payload +:+ "
• Status: " +:+ Call_CallStatus payload +:+ "
• Duration: " +:+ duration +:+ "
• Start: " +:+ formatTime env "Monday, January 2, 2006 at 3:04 PM" startTime +:+ "
• End: " +:+ formatTime env "Monday, January 2, 2006 at 3:04 PM" endTime +:+ "
• Disconnection: " +:+ Call_DisconnectionReason payload +:+ "

Call Analysis:
• Summary: " +:+ CallSummary (Call_CallAnalysis payload) +:+ "
• User Sentiment: " +:+ UserSentiment (Call_CallAnalysis payload) +:+ "
• Call Successful: " +:+ strconv.FormatBool (CallSuccessful (Call_CallAnalysis payload)) +:+ "
• In Voicemail: " +:+ strconv.FormatBool (InVoicemail (Call_CallAnalysis payload)) +:+ "

Transcript:
" +:+ Call_Transcript payload +:+ "

Additional Resources:
• Recording: " +:+ Call_RecordingURL payload +:+ "
• Multi-Channel Recording: " +:+ Call_RecordingMultiChannelURL payload +:+ "
• Public Log: " +:+ Call_PublicLogURL payload.

Definition buildCallAnalyzedNoteWithPerson (payload : RetellCallAnalyzedPayload)
  (startTime endTime : Time) (duration personName leadTitle phoneNumber : string)
  : string :=
  "🤖 AI Call Analysis Complete

👤 Person: " +:+ personName +:+ "
📞 Phone: " +:+ phoneNumber +:+ "
🎯 Lead: " +:+ leadTitle +:+ "
📅 Date: " +:+ formatTime env "2006-01-02" startTime +:+ "
⏰ Time: " +:+ formatTime env "15:04:05" startTime
    +:+ " - " +:+ formatTime env "15:04:05" endTime +:+ "
⏱️ Duration: " +:+ duration +:+ "

📊 Analysis Summary:
" +:+ CallSummary (Call_CallAnalysis payload) +:+ "

😊 Sentiment: " +:+ UserSentiment (Call_CallAnalysis payload) +:+ "
✅ Call Successful: " +:+ strconv.FormatBool (CallSuccessful (Call_CallAnalysis payload)) +:+ "
📝 Disconnection Reason: " +:+ Call_DisconnectionReason payload +:+ "

🤖 Agent: " +:+ Call_AgentName payload
    +:+ " (v" +:+ strconv.FormatInt (Call_AgentVersion payload) +:+ ")
📋 Call ID: " +:+ Call_CallID payload +:+ "

📄 Full Transcript:
" +:+ Call_Transcript payload.

Definition analyzedActivityData (payload : RetellCallAnalyzedPayload) (personID : Z)
  (duration note : string) (startTime : Time) : JSON :=
  JObject [("subject", JString ("AI Call Analyzed - " +:+ Call_AgentName payload));
           ("type", JString "call");
           ("person_id", JNumber personID);
           ("duration", JString duration);
           ("note", JString note);
           ("done", JNumber 1);
           ("due_date", JString (formatTime env "2006-01-02" startTime));
           ("due_time", JString (formatTime env "15:04:05" startTime))].

(** [time.Unix(payload.Call.StartTimestamp/1000, 0)]; Go's integer
    division truncates towards zero. *)
Definition startTimeOf (payload : RetellCallAnalyzedPayload) : Time :=
  Z.quot (Call_StartTimestamp payload) 1000.

Definition endTimeOf (payload : RetellCallAnalyzedPayload) : Time :=
  Z.quot (Call_EndTimestamp payload) 1000.

Definition durationOf (payload : RetellCallAnalyzedPayload) : string :=
  let durationSeconds := Z.quot (Call_DurationMs payload) 1000 in
  let hours := Z.quot durationSeconds 3600 in
  let minutes := Z.quot (Z.rem durationSeconds 3600) 60 in
  let seconds := Z.rem durationSeconds 60 in
  strconv.pad2 hours +:+ ":" +:+ strconv.pad2 minutes +:+ ":" +:+ strconv.pad2 seconds.

Definition transcriptNoteData (payload : RetellCallAnalyzedPayload) (personID : Z) : JSON :=
  JObject [("content",
            JString ("Call Analysis:" +:+ nl +:+ nl
                     +:+ CallSummary (Call_CallAnalysis payload)
                     +:+ nl +:+ nl +:+ "Full Transcript:" +:+ nl
                     +:+ Call_Transcript payload));
           ("person_id", JNumber personID)].

Definition ProcessRetellCallAnalyzed (payload : RetellCallAnalyzedPayload) : Go unit :=
  let* cfg := getConfig in
  if HasPipedriveConfig cfg then
    let startTime := startTimeOf payload in
    let endTime := endTimeOf payload in
    let duration := durationOf payload in
    let* found := getCallMapping (Call_CallID payload) in
    let '(callMapping, exists_) := found in
    if negb exists_ then
      let* contact := wrap "failed to find/create contact: "
                        (FindOrCreateContactByPhone "Unknown") in
      match strconv.Atoi (contact_ID contact) with
      | None => fail ("invalid contact ID: " +:+ atoiError env (contact_ID contact))
      | Some personID =>
          let* _ := attempt (UpdatePersonWithCallData personID (Call_Transcript payload)
                               duration (formatTime env "2006-01-02" startTime)) in
          let activityData :=
            analyzedActivityData payload personID duration
              (buildCallAnalyzedNote payload startTime endTime duration) startTime in
          let* _ := wrap "failed to create call activity: "
                      (makePipedriveRequest "POST" "/activities" (Some activityData)) in
          ret tt
      end
    else
      let personID := PersonID callMapping in
      let* _ := attempt (UpdatePersonWithCallData personID (Call_Transcript payload)
                           duration (formatTime env "2006-01-02" startTime)) in
      let activityData :=
        analyzedActivityData payload personID duration
          (buildCallAnalyzedNoteWithPerson payload startTime endTime duration
             (PersonName callMapping) (LeadTitle callMapping) (PhoneNumber callMapping))
          startTime in
      let* resp := wrap "failed to create call activity: "
                     (makePipedriveRequest "POST" "/activities" (Some activityData)) in
      match decodeActivity env (snd resp) with
      | Malformed e => fail ("failed to decode activity response: " +:+ e)
      | Parsed activityResult =>
          if negb (activity_Success activityResult) then
            fail "failed to create call activity in Pipedrive"
          else
            match activity_Data activityResult with
            | None => panic
            | Some _ =>
                let noteData := transcriptNoteData payload personID in
                let* _ := attempt (makePipedriveRequest "POST" "/notes" (Some noteData)) in
                ret tt
            end
      end
  else ret tt.

(** ** The lead webhook handler ([api/handlers.go]) *)

(** [PipedriveLeadWebhookHandler(pipedriveService)]: [process] is the
    service's [ProcessPipedriveLead], [raw] the request body. *)
Definition PipedriveLeadWebhookHandler
  (process : PipedriveLeadWebhookPayload -> Go unit) (raw : string)
  : Go WebhookResponse :=
  match bindLead env raw with
  | Malformed _ =>
      ret {| StatusCode := 400; Success := false;
             Message := "Invalid JSON payload"; Data := [] |}
  | Parsed payload =>
      if negb (nonEmpty (Data_ID payload)) || (Data_PersonID payload =? 0) then
        ret {| StatusCode := 400; Success := false;
               Message := "Missing required fields: data.id and data.person_id";
               Data := [] |}
      else
        let* processed := attempt (process payload) in
        match processed with
        | inr e =>
            ret {| StatusCode := 500; Success := false;
                   Message := "Failed to process lead: " +:+ e; Data := [] |}
        | inl _ =>
            ret {| StatusCode := 200; Success := true;
                   Message := "Pipedrive lead webhook processed successfully";
                   Data := [("lead_id", JString (Data_ID payload));
                            ("person_id", JNumber (Data_PersonID payload));
                            ("title", JString (Data_Title payload));
                            ("action", JString (Meta_Action payload))] |}
        end
  end.

(** The route [POST /webhook/pipedrive/lead] of [api/index.go]. *)
Definition leadWebhook (raw : string) : Go WebhookResponse :=
  PipedriveLeadWebhookHandler ProcessPipedriveLead raw.

End Service.

(** ** Call events, contacts by e-mail, leads and the other handlers *)

Record RetellWebhookPayload := {
  Retell_CallID : string;
  Retell_ContactPhone : string;
  Retell_Transcript : string;
  Retell_Duration : string;
  Retell_Status : string;
  Retell_Timestamp : string;
  Retell_Event : string
}.

Record Attendee := {
  att_Email : string;
  att_Name : string
}.

Record CalWebhookPayload := {
  TriggerEvent : string;
  CreatedAt : string;
  Payload_ID : Z;
  Payload_Title : string;
  Payload_StartTime : string;
  Payload_EndTime : string;
  Payload_Attendees : list Attendee;
  Payload_Location : string
}.

Record PipedriveLead := {
  lead_ID : string;
  lead_Title : string;
  lead_PersonID : Z;
  lead_OwnerID : Z;
  lead_AddTime : string;
  lead_UpdateTime : string
}.

Record PipedriveLeadSearchResponse := {
  leads_Success : bool;
  leads_Data : option PipedriveLead;
  leads_Items : list PipedriveLead
}.

(** The library calls of the call-event, e-mail and handler code that
    [Env] does not hold. *)
Record Lib := {
  (** [time.Parse(time.RFC3339, s)] *)
  parseTime : string -> Decoded Time;
  (** [url.QueryEscape] *)
  QueryEscape : string -> string;
  (** [encoding/json] on a lead search answer *)
  decodeLeads : string -> Decoded PipedriveLeadSearchResponse;
  (** [c.ShouldBindJSON(&payload)] on the bodies of the other webhooks *)
  bindRetell : string -> Decoded RetellWebhookPayload;
  bindAnalyzed : string -> Decoded RetellCallAnalyzedPayload;
  bindCal : string -> Decoded CalWebhookPayload
}.

Module handler.

(** The package-level [extractPhoneFromPerson]: the first phone as it is. *)
Definition extractPhoneFromPerson (person : PipedrivePerson) : string :=
  match Phone person with
  | ph :: _ => Value ph
  | [] => ""
  end.

End handler.

(** [os.Getenv] on the process environment: the empty string for a
    variable that is not set. *)
Definition Getenv (environ : gmap string string) (key : string) : string :=
  default "" (environ !! key).

Definition getEnv (environ : gmap string string) (key defaultValue : string) : string :=
  let value := Getenv environ key in
  if nonEmpty value then value else defaultValue.

(** [LoadConfig], for the fields of [Config] that the service reads. *)
Definition LoadConfig (environ : gmap string string) : Config :=
  {| PipedriveAPIKey := getEnv environ "PIPEDRIVE_API_KEY" "";
     PipedriveBaseURL := getEnv environ "PIPEDRIVE_BASE_URL" "https://api.pipedrive.com/v1";
     RetellAPIKey := getEnv environ "RETELL_API_KEY" "";
     RetellAssistantID := getEnv environ "RETELL_ASSISTANT_ID" "";
     RetellBaseURL := getEnv environ "RETELL_BASE_URL" "https://api.retellai.com";
     RetellFromNumber := getEnv environ "RETELL_FROM_NUMBER" "18005300627" |}.

Definition NewPipedriveService (config : Config) : PipedriveService :=
  {| config := config; callMappings := ∅ |}.

(** The state after [init] of [api/index.go]: the service built from the
    loaded configuration, nothing sent yet. *)
Definition initWorld (environ : gmap string string) : World :=
  {| service := NewPipedriveService (LoadConfig environ); sent := []; ticks := 0 |}.

Section Events.

Variable env : Env.
Variable lib : Lib.

Definition startedActivityData (personID : Z) (payload : RetellWebhookPayload)
  (callTime : Time) : JSON :=
  JObject [("subject", JString "AI Call Started");
           ("type", JString "call");
           ("person_id", JNumber personID);
           ("note", JString ("Retell AI call started" +:+ nl
                             +:+ "Call ID: " +:+ Retell_CallID payload +:+ nl
                             +:+ "Phone: " +:+ Retell_ContactPhone payload +:+ nl
                             +:+ "Started at: "
                             +:+ formatTime env "2006-01-02 15:04:05" callTime));
           ("done", JNumber 0);
           ("due_date", JString (formatTime env "2006-01-02" callTime));
           ("due_time", JString (formatTime env "15:04:05" callTime))].

Definition handleCallStarted (personID : Z) (payload : RetellWebhookPayload)
  (callTime : Time) : Go unit :=
  let activityData := startedActivityData personID payload callTime in
  let* _ := attempt (makePipedriveRequest env "POST" "/activities" (Some activityData)) in
  ret tt.

Definition endedActivityData (personID : Z) (payload : RetellWebhookPayload)
  (callTime : Time) : JSON :=
  JObject [("subject", JString "AI Call Ended");
           ("type", JString "call");
           ("person_id", JNumber personID);
           ("note", JString ("Retell AI call ended" +:+ nl
                             +:+ "Call ID: " +:+ Retell_CallID payload +:+ nl
                             +:+ "Phone: " +:+ Retell_ContactPhone payload +:+ nl
                             +:+ "Duration: " +:+ Retell_Duration payload +:+ nl
                             +:+ "Status: " +:+ Retell_Status payload +:+ nl
                             +:+ "Ended at: "
                             +:+ formatTime env "2006-01-02 15:04:05" callTime));
           ("done", JNumber 1);
           ("due_date", JString (formatTime env "2006-01-02" callTime));
           ("due_time", JString (formatTime env "15:04:05" callTime))].

Definition handleCallEnded (personID : Z) (payload : RetellWebhookPayload)
  (callTime : Time) : Go unit :=
  let activityData := endedActivityData personID payload callTime in
  let* _ := attempt (makePipedriveRequest env "POST" "/activities" (Some activityData)) in
  ret tt.

(** The note of the completed, hang-up and opt-out activities: the three
    format strings differ in the heading only (and in the sentence the
    opt-out appends). *)
Definition callNote (heading : string) (payload : RetellWebhookPayload)
  (callTime : Time) : string :=
  heading +:+ nl +:+ nl
  +:+ "Call ID: " +:+ Retell_CallID payload +:+ nl
  +:+ "Phone: " +:+ Retell_ContactPhone payload +:+ nl
  +:+ "Duration: " +:+ Retell_Duration payload +:+ nl
  +:+ "Date: " +:+ formatTime env "Monday, January 2, 2006" callTime +:+ nl
  +:+ "Time: " +:+ formatTime env "3:04 PM" callTime +:+ nl
  +:+ "Status: " +:+ Retell_Status payload +:+ nl
  +:+ "Event: " +:+ Retell_Event payload +:+ nl +:+ nl
  +:+ "Transcript:" +:+ nl +:+ Retell_Transcript payload.

Definition completedActivityData (personID : Z) (payload : RetellWebhookPayload)
  (callTime : Time) : JSON :=
  JObject [("subject", JString "AI Call Completed");
           ("type", JString "call");
           ("person_id", JNumber personID);
           ("duration", JString (Retell_Duration payload));
           ("note", JString (callNote "AI Call Completed" payload callTime));
           ("done", JNumber 1);
           ("due_date", JString (formatTime env "2006-01-02" callTime));
           ("due_time", JString (formatTime env "15:04:05" callTime))].

Definition handleCallCompleted (personID : Z) (payload : RetellWebhookPayload)
  (callTime : Time) : Go unit :=
  let* _ := attempt (UpdatePersonWithCallData env personID (Retell_Transcript payload)
                       (Retell_Duration payload) (formatTime env "2006-01-02" callTime)) in
  let activityData := completedActivityData personID payload callTime in
  let* resp := wrap "failed to create call activity: "
                 (makePipedriveRequest env "POST" "/activities" (Some activityData)) in
  match decodeActivity env (snd resp) with
  | Malformed e => fail ("failed to decode activity response: " +:+ e)
  | Parsed activityResult =>
      if negb (activity_Success activityResult) then
        fail "failed to create call activity in Pipedrive"
      else
        match activity_Data activityResult with
        | None => panic
        | Some _ => ret tt
        end
  end.

Definition hangupActivityData (personID : Z) (payload : RetellWebhookPayload)
  (callTime : Time) : JSON :=
  JObject [("subject", JString "Customer Hung Up");
           ("type", JString "call");
           ("person_id", JNumber personID);
           ("note", JString (callNote "Customer Hung Up" payload callTime));
           ("done", JNumber 1);
           ("due_date", JString (formatTime env "2006-01-02" callTime));
           ("due_time", JString (formatTime env "15:04:05" callTime))].

Definition handleCallHangup (personID : Z) (payload : RetellWebhookPayload)
  (callTime : Time) : Go unit :=
  let* _ := attempt (UpdatePersonWithCallData env personID (Retell_Transcript payload)
                       (Retell_Duration payload) (formatTime env "2006-01-02" callTime)) in
  let hangupData := hangupActivityData personID payload callTime in
  let* resp := wrap "failed to create hangup activity: "
                 (makePipedriveRequest env "POST" "/activities" (Some hangupData)) in
  match decodeActivity env (snd resp) with
  | Malformed e => fail ("failed to decode hangup response: " +:+ e)
  | Parsed hangupResult =>
      if activity_Success hangupResult then
        match activity_Data hangupResult with
        | None => panic
        | Some _ => ret tt
        end
      else ret tt
  end.

Definition optoutLabelData : JSON :=
  JObject [("label", JString "Do Not Contact")].

Definition optoutActivityData (personID : Z) (payload : RetellWebhookPayload)
  (callTime : Time) : JSON :=
  JObject [("subject", JString "Customer Opted Out");
           ("type", JString "call");
           ("person_id", JNumber personID);
           ("note", JString (callNote "Customer Opted Out" payload callTime
                             +:+ nl +:+ nl
                             +:+ "Customer requested to be removed from contact list."));
           ("done", JNumber 1);
           ("due_date", JString (formatTime env "2006-01-02" callTime));
           ("due_time", JString (formatTime env "15:04:05" callTime))].

Definition handleCallOptout (personID : Z) (payload : RetellWebhookPayload)
  (callTime : Time) : Go unit :=
  let* _ := attempt (UpdatePersonWithCallData env personID (Retell_Transcript payload)
                       (Retell_Duration payload) (formatTime env "2006-01-02" callTime)) in
  let endpoint := "/persons/" +:+ strconv.FormatInt personID in
  let* _ := wrap "failed to mark as DNC: "
              (makePipedriveRequest env "PUT" endpoint (Some optoutLabelData)) in
  let optoutData := optoutActivityData personID payload callTime in
  let* _ := wrap "failed to create optout activity: "
              (makePipedriveRequest env "POST" "/activities" (Some optoutData)) in
  ret tt.

Definition addTranscriptNote (personID : Z) (transcript : string) : Go unit :=
  let noteData :=
    JObject [("content", JString ("Transcript:" +:+ nl +:+ transcript));
             ("person_id", JNumber personID)] in
  let* _ := wrap "failed to create transcript note: "
              (makePipedriveRequest env "POST" "/notes" (Some noteData)) in
  ret tt.

Definition ProcessRetellCall (payload : RetellWebhookPayload) : Go unit :=
  let* cfg := getConfig in
  if HasPipedriveConfig cfg then
    match parseTime lib (Retell_Timestamp payload) with
    | Malformed e => fail ("invalid timestamp format: " +:+ e)
    | Parsed callTime =>
        let* contact := wrap "failed to find/create contact: "
                          (FindOrCreateContactByPhone env (Retell_ContactPhone payload)) in
        match strconv.Atoi (contact_ID contact) with
        | None => fail ("invalid contact ID: " +:+ atoiError env (contact_ID contact))
        | Some personID =>
            if String.eqb (Retell_Event payload) "call_started" then
              handleCallStarted personID payload callTime
            else if String.eqb (Retell_Event payload) "call_ended" then
              handleCallEnded personID payload callTime
            else if String.eqb (Retell_Event payload) "call.completed" then
              handleCallCompleted personID payload callTime
            else if String.eqb (Retell_Event payload) "call.hangup" then
              handleCallHangup personID payload callTime
            else if String.eqb (Retell_Event payload) "call.optout" then
              handleCallOptout personID payload callTime
            else ret tt
        end
    end
  else ret tt.

(** [FindOrCreateContactByEmail]; it does not look at the configuration,
    and after a creation it reads [personResult.Data] without a nil test. *)
Definition FindOrCreateContactByEmail (email name : string) : Go Contact :=
  let encodedEmail := QueryEscape lib email in
  let searchEndpoint := "/persons/search?term=" +:+ encodedEmail +:+ "&fields=email" in
  let* resp := wrap "failed to search for contact: "
                 (makePipedriveRequest env "GET" searchEndpoint None) in
  match decodeSearch env (snd resp) with
  | Malformed e => fail ("failed to decode search response: " +:+ e)
  | Parsed searchResult =>
      match search_Success searchResult, search_Items searchResult with
      | true, person :: _ =>
          ret {| contact_ID := strconv.FormatInt (ID person);
                 contact_Name := Name person;
                 contact_Email := email;
                 contact_Phone := handler.extractPhoneFromPerson person;
                 DNC := false |}
      | _, _ =>
          let personData :=
            JObject [("name", JString name);
                     ("email", JArray [JObject [("value", JString email)]])] in
          let* resp := wrap "failed to create contact: "
                         (makePipedriveRequest env "POST" "/persons" (Some personData)) in
          match decodePerson env (snd resp) with
          | Malformed e => fail ("failed to decode person response: " +:+ e)
          | Parsed personResult =>
              if negb (person_Success personResult) then
                fail "failed to create contact in Pipedrive"
              else
                match person_Data personResult with
                | None => panic
                | Some person =>
                    ret {| contact_ID := strconv.FormatInt (ID person);
                           contact_Name := Name person;
                           contact_Email := email;
                           contact_Phone := handler.extractPhoneFromPerson person;
                           DNC := false |}
                end
          end
      end
  end.

(** [FindLeadByEmail]: [None] is the nil lead returned with a nil error. *)
Definition FindLeadByEmail (email : string) : Go (option PipedriveLead) :=
  let* cfg := getConfig in
  if negb (HasPipedriveConfig cfg) then fail "Pipedrive not configured"
  else
    let* person := wrap "failed to find person by email: "
                     (FindOrCreateContactByEmail email "") in
    match strconv.Atoi (contact_ID person) with
    | None => fail ("invalid person ID: " +:+ atoiError env (contact_ID person))
    | Some personID =>
        let searchURL := "/leads?person_id=" +:+ strconv.FormatInt personID in
        let* resp := wrap "failed to search for leads: "
                       (makePipedriveRequest env "GET" searchURL None) in
        match decodeLeads lib (snd resp) with
        | Malformed e => fail ("failed to decode lead search response: " +:+ e)
        | Parsed leadResult =>
            match leads_Success leadResult, leads_Items leadResult with
            | true, lead :: _ => ret (Some lead)
            | _, _ => ret None
            end
        end
    end.

(** ** The other webhook handlers ([api/handlers.go]) *)

(** [RetellWebhookHandler(pipedriveService)]: [process] is the service's
    [ProcessRetellCall]. *)
Definition RetellWebhookHandler (process : RetellWebhookPayload -> Go unit)
  (raw : string) : Go WebhookResponse :=
  match bindRetell lib raw with
  | Malformed _ =>
      ret {| StatusCode := 400; Success := false;
             Message := "Invalid JSON payload"; Data := [] |}
  | Parsed payload =>
      if negb (nonEmpty (Retell_CallID payload))
         || negb (nonEmpty (Retell_ContactPhone payload)) then
        ret {| StatusCode := 400; Success := false;
               Message := "Missing required fields: call_id and contact_phone";
               Data := [] |}
      else
        let* processed := attempt (process payload) in
        match processed with
        | inr e =>
            ret {| StatusCode := 500; Success := false;
                   Message := "Failed to process call: " +:+ e; Data := [] |}
        | inl _ =>
            ret {| StatusCode := 200; Success := true;
                   Message := "Retell webhook processed successfully";
                   Data := [("call_id", JString (Retell_CallID payload));
                            ("contact_phone", JString (Retell_ContactPhone payload));
                            ("event", JString (Retell_Event payload));
                            ("status", JString (Retell_Status payload));
                            ("duration", JString (Retell_Duration payload))] |}
        end
  end.

(** [RetellCallAnalyzedHandler(pipedriveService)]: [process] is the
    service's [ProcessRetellCallAnalyzed]. *)
Definition RetellCallAnalyzedHandler (process : RetellCallAnalyzedPayload -> Go unit)
  (raw : string) : Go WebhookResponse :=
  match bindAnalyzed lib raw with
  | Malformed _ =>
      ret {| StatusCode := 400; Success := false;
             Message := "Invalid JSON payload"; Data := [] |}
  | Parsed payload =>
      if negb (nonEmpty (Call_CallID payload)) then
        ret {| StatusCode := 400; Success := false;
               Message := "Missing required field: call.call_id"; Data := [] |}
      else
        let* processed := attempt (process payload) in
        match processed with
        | inr e =>
            ret {| StatusCode := 500; Success := false;
                   Message := "Failed to process call analyzed: " +:+ e; Data := [] |}
        | inl _ =>
            ret {| StatusCode := 200; Success := true;
                   Message := "Retell call_analyzed webhook processed successfully";
                   Data := [("call_id", JString (Call_CallID payload));
                            ("agent_name", JString (Call_AgentName payload));
                            ("duration", JNumber (Call_DurationMs payload));
                            ("status", JString (Call_CallStatus payload));
                            ("sentiment",
                             JString (UserSentiment (Call_CallAnalysis payload)))] |}
        end
  end.

Definition attendeeJSON (a : Attendee) : JSON :=
  JObject [("email", JString (att_Email a)); ("name", JString (att_Name a))].

(** [CalWebhookHandler(pipedriveService)]: [process] is the service's
    [ProcessCalAppointment]. *)
Definition CalWebhookHandler (process : CalWebhookPayload -> Go unit)
  (raw : string) : Go WebhookResponse :=
  match bindCal lib raw with
  | Malformed _ =>
      ret {| StatusCode := 400; Success := false;
             Message := "Invalid JSON payload"; Data := [] |}
  | Parsed payload =>
      match Payload_Attendees payload with
      | [] =>
          ret {| StatusCode := 400; Success := false;
                 Message := "Missing required field: attendees"; Data := [] |}
      | _ :: _ =>
          if negb (nonEmpty (Payload_StartTime payload))
             || negb (nonEmpty (Payload_Location payload)) then
            ret {| StatusCode := 400; Success := false;
                   Message := "Missing required fields: startTime and location";
                   Data := [] |}
          else
            let* processed := attempt (process payload) in
            match processed with
            | inr e =>
                ret {| StatusCode := 500; Success := false;
                       Message := "Failed to process appointment: " +:+ e; Data := [] |}
            | inl _ =>
                ret {| StatusCode := 200; Success := true;
                       Message := "Appointment processed successfully";
                       Data := [("trigger_event", JString (TriggerEvent payload));
                                ("booking_id", JNumber (Payload_ID payload));
                                ("title", JString (Payload_Title payload));
                                ("start_time", JString (Payload_StartTime payload));
                                ("end_time", JString (Payload_EndTime payload));
                                ("location", JString (Payload_Location payload));
                                ("attendees",
                                 JArray (map attendeeJSON (Payload_Attendees payload)))] |}
            end
      end
  end.

(** The routes [POST /webhook/retell] and [POST /webhook/retell/analyzed]
    of [api/index.go]. *)
Definition retellWebhook (raw : string) : Go WebhookResponse :=
  RetellWebhookHandler ProcessRetellCall raw.

Definition analyzedWebhook (raw : string) : Go WebhookResponse :=
  RetellCallAnalyzedHandler (ProcessRetellCallAnalyzed env) raw.

End Events.

(** ** Definitions used in the statements *)

(** The phone number with spaces, dashes and parentheses removed. *)
Definition stripSeparators (v : string) : string :=
  strings.ReplaceAll
    (strings.ReplaceAll (strings.ReplaceAll (strings.ReplaceAll v " " "") "-" "") "(" "")
    ")" "".

(** [frame cfg P m]: run under configuration [cfg], [m] leaves the
    service (configuration and call mappings) as it is and hands the
    HTTP client only requests that satisfy [P]. *)
Definition frame {A} (cfg : Config) (P : Request -> Prop) (m : Go A) : Prop :=
  forall w r w', config (service w) = cfg -> m w = (r, w') ->
    service w' = service w /\ exists new, sent w' = sent w ++ new /\ Forall P new.

(** [occurs c s]: the byte [c] occurs in [s]. *)
Fixpoint occurs (c : ascii) (s : string) : bool :=
  match s with
  | EmptyString => false
  | String a s' => Ascii.eqb a c || occurs c s'
  end.

(** A request built by [makePipedriveRequest], for the CRM. *)
Definition toCRM (cfg : Config) (req : Request) : Prop :=
  exists method endpoint body, req = pipedriveRequest cfg method endpoint body.

(** The world after one more request was handed to the HTTP client. *)
Definition afterSending (w : World) (reqs : list Request) : World :=
  {| service := service w; sent := sent w ++ reqs; ticks := ticks w |}.

(** ** Requests named in the statements *)

(** A request that creates a contact: [POST /persons]. *)
Definition createsContact (cfg : Config) (req : Request) : Prop :=
  method req = "POST" /\ url req = url (pipedriveRequest cfg "POST" "/persons" None).

(** The three requests of the call-analyzed processor for a person: the
    update of the custom fields, the completed activity, the transcript
    note. *)
Definition callDataRequest (env : Env) (cfg : Config)
  (payload : RetellCallAnalyzedPayload) (personID : Z) : Request :=
  pipedriveRequest cfg "PUT" ("/persons/" +:+ strconv.FormatInt personID)
    (Some (callDataFields (Call_Transcript payload) (durationOf payload)
             (formatTime env "2006-01-02" (startTimeOf payload)))).

Definition activityRequest (env : Env) (cfg : Config)
  (payload : RetellCallAnalyzedPayload) (personID : Z) (note : string) : Request :=
  pipedriveRequest cfg "POST" "/activities"
    (Some (analyzedActivityData env payload personID (durationOf payload) note
             (startTimeOf payload))).

Definition noteRequest (cfg : Config) (payload : RetellCallAnalyzedPayload)
  (personID : Z) : Request :=
  pipedriveRequest cfg "POST" "/notes" (Some (transcriptNoteData payload personID)).

(** The two requests of the fallback contact path: the search by the
    term [Unknown] and the creation of the contact [Unknown Caller]. *)
Definition unknownSearchRequest (cfg : Config) : Request :=
  pipedriveRequest cfg "GET" "/persons/search?term=Unknown&fields=phone" None.

Definition unknownCreateRequest (cfg : Config) : Request :=
  pipedriveRequest cfg "POST" "/persons"
    (Some (JObject [("name", JString "Unknown Caller");
                    ("phone", JArray [JObject [("value", JString "Unknown")]])])).

(** ** Sample data *)

Definition onePhone (v : string) : PipedrivePerson :=
  {| ID := 139; Name := "Jane"; Email := [];
     Phone := [ {| Label := "work"; Value := v; Primary := true |} ] |}.

Definition jane : PipedrivePerson := onePhone "+1 212-555-0100".

Definition noPhone : PipedrivePerson :=
  {| ID := 139; Name := "Jane"; Email := []; Phone := [] |}.

Definition realConfig : Config :=
  {| PipedriveAPIKey := "pd-token";
     PipedriveBaseURL := "https://api.pipedrive.com/v1";
     RetellAPIKey := "key_1";
     RetellAssistantID := "agent_1";
     RetellBaseURL := "https://api.retellai.com";
     RetellFromNumber := "18005300627" |}.

Definition leadPayload (action : string) : PipedriveLeadWebhookPayload :=
  {| Data_ID := "lead-7"; Data_Title := "Website enquiry"; Data_PersonID := 139;
     Meta_Action := action |}.

(** What the body [{}] binds to. *)
Definition blankLead : PipedriveLeadWebhookPayload :=
  {| Data_ID := ""; Data_Title := ""; Data_PersonID := 0; Meta_Action := "" |}.

Definition analyzedPayload : RetellCallAnalyzedPayload :=
  {| Event := "call_analyzed";
     Call_CallID := "call_123";
     Call_CallType := "phone_call";
     Call_AgentVersion := 2;
     Call_AgentName := "Ava";
     Call_CallStatus := "ended";
     Call_StartTimestamp := 1700000000123;
     Call_EndTimestamp := 1700000095123;
     Call_DurationMs := 95000;
     Call_Transcript := "Agent: Hello";
     Call_DisconnectionReason := "user_hangup";
     Call_CallAnalysis := {| CallSummary := "Short call"; InVoicemail := false;
                             UserSentiment := "Positive"; CallSuccessful := true |};
     Call_RecordingURL := "";
     Call_RecordingMultiChannelURL := "";
     Call_PublicLogURL := "" |}.

Definition janeMapping : CallMapping :=
  {| PersonName := "Jane"; PhoneNumber := "+12125550100";
     LeadTitle := "Website enquiry"; PersonID := 139; Timestamp := 1700000000 |}.

Definition freshWorld : World :=
  {| service := {| config := realConfig; callMappings := ∅ |};
     sent := []; ticks := 0 |}.

Definition recordedWorld : World :=
  {| service := {| config := realConfig;
                   callMappings := {[ "call_123" := janeMapping ]} |};
     sent := []; ticks := 0 |}.

(** An environment in which the hosts accepted by [up] answer 200 and
    every other request fails to connect; the CRM knows no contact by
    phone and answers every person request with [person]. *)
Definition sampleEnv (up : Request -> bool) (person : PipedrivePerson) : Env :=
  {| newRequestError := fun _ => None;
     transport := fun _ req =>
       if up req then Response 200 "{}" None
       else DoError "dial tcp: connection refused";
     clock := fun n => 1700000000 + Z.of_nat n;
     uuid := fun _ => "00000000-0000-4000-8000-000000000000";
     formatTime := fun layout _ => layout;
     decodePerson := fun _ =>
       Parsed {| person_Success := true; person_Data := Some person |};
     decodeSearch := fun _ =>
       Parsed {| search_Success := true; search_Data := None; search_Items := [] |};
     decodeActivity := fun _ =>
       Parsed {| activity_Success := true;
                 activity_Data := Some {| activity_ID := 1; activity_Subject := "" |} |};
     decodeRetell := fun _ => Malformed "unexpected end of JSON input";
     decodeObject := fun _ => Malformed "unexpected end of JSON input";
     bindLead := fun raw =>
       if String.eqb raw "{}" then Parsed blankLead else Parsed (leadPayload raw);
     atoiError := fun s => "strconv.Atoi: parsing " +:+ s +:+ ": invalid syntax" |}.

Definition toPipedrive (req : Request) : bool :=
  strings.HasPrefix (url req) "https://api.pipedrive.com".

(** The CRM answers, the call platform is unreachable. *)
Definition crmOnlyEnv : Env := sampleEnv toPipedrive jane.

Definition crmOnlyNoPhoneEnv : Env := sampleEnv toPipedrive noPhone.

(** Nothing is reachable. *)
Definition offlineEnv : Env := sampleEnv (fun _ => false) jane.

Definition retellPayloadAt (timestamp event : string) : RetellWebhookPayload :=
  {| Retell_CallID := "call_9"; Retell_ContactPhone := "+12125550100";
     Retell_Transcript := "Agent: Hello"; Retell_Duration := "00:02:15";
     Retell_Status := "completed"; Retell_Timestamp := timestamp;
     Retell_Event := event |}.

Definition retellPayload (event : string) : RetellWebhookPayload :=
  retellPayloadAt "2023-11-14T22:13:20Z" event.

Definition calPayload (attendees : list Attendee) : CalWebhookPayload :=
  {| TriggerEvent := "BOOKING_CREATED"; CreatedAt := "2023-11-14T22:13:20Z";
     Payload_ID := 77; Payload_Title := "Intro call";
     Payload_StartTime := "2023-11-15T10:00:00Z";
     Payload_EndTime := "2023-11-15T10:30:00Z";
     Payload_Attendees := attendees; Payload_Location := "https://meet.example/77" |}.

Definition sampleLib : Lib :=
  {| parseTime := fun s =>
       if String.eqb s "2023-11-14T22:13:20Z" then Parsed 1700000000
       else Malformed ("parsing time " +:+ s +:+ ": cannot parse");
     QueryEscape := fun s =>
       if String.eqb s "jane@example.com" then "jane%40example.com" else s;
     decodeLeads := fun _ =>
       Parsed {| leads_Success := true; leads_Data := None; leads_Items := [] |};
     bindRetell := fun raw =>
       if String.eqb raw "{}" then
         Parsed {| Retell_CallID := ""; Retell_ContactPhone := "";
                   Retell_Transcript := ""; Retell_Duration := ""; Retell_Status := "";
                   Retell_Timestamp := ""; Retell_Event := "" |}
       else if String.eqb raw "late" then
         Parsed (retellPayloadAt "yesterday" "call_started")
       else Parsed (retellPayload raw);
     bindAnalyzed := fun raw =>
       if String.eqb raw "{}" then
         Parsed {| Event := ""; Call_CallID := ""; Call_CallType := "";
                   Call_AgentVersion := 0; Call_AgentName := ""; Call_CallStatus := "";
                   Call_StartTimestamp := 0; Call_EndTimestamp := 0; Call_DurationMs := 0;
                   Call_Transcript := ""; Call_DisconnectionReason := "";
                   Call_CallAnalysis := {| CallSummary := ""; InVoicemail := false;
                                           UserSentiment := "";
                                           CallSuccessful := false |};
                   Call_RecordingURL := ""; Call_RecordingMultiChannelURL := "";
                   Call_PublicLogURL := "" |}
       else Parsed analyzedPayload;
     bindCal := fun raw =>
       if String.eqb raw "{}" then Parsed (calPayload [])
       else Parsed (calPayload [ {| att_Email := "jane@example.com";
                                    att_Name := "Jane" |} ]) |}.

(** [env] with other answers of the person, activity and search decoders. *)
Definition withPersonAnswer (env : Env) (answer : PipedrivePersonResponse) : Env :=
  {| newRequestError := newRequestError env; transport := transport env;
     clock := clock env; uuid := uuid env; formatTime := formatTime env;
     decodePerson := fun _ => Parsed answer;
     decodeSearch := decodeSearch env; decodeActivity := decodeActivity env;
     decodeRetell := decodeRetell env; decodeObject := decodeObject env;
     bindLead := bindLead env; atoiError := atoiError env |}.

Definition withActivityAnswer (env : Env) (answer : PipedriveActivityResponse) : Env :=
  {| newRequestError := newRequestError env; transport := transport env;
     clock := clock env; uuid := uuid env; formatTime := formatTime env;
     decodePerson := decodePerson env;
     decodeSearch := decodeSearch env; decodeActivity := fun _ => Parsed answer;
     decodeRetell := decodeRetell env; decodeObject := decodeObject env;
     bindLead := bindLead env; atoiError := atoiError env |}.

Definition withRetellAnswer (env : Env) (answer : RetellCallResponse) : Env :=
  {| newRequestError := newRequestError env; transport := transport env;
     clock := clock env; uuid := uuid env; formatTime := formatTime env;
     decodePerson := decodePerson env;
     decodeSearch := decodeSearch env; decodeActivity := decodeActivity env;
     decodeRetell := fun _ => Parsed answer; decodeObject := decodeObject env;
     bindLead := bindLead env; atoiError := atoiError env |}.

Definition withTransport (env : Env) (answer : list Request -> Request -> HttpResult)
  : Env :=
  {| newRequestError := newRequestError env; transport := answer;
     clock := clock env; uuid := uuid env; formatTime := formatTime env;
     decodePerson := decodePerson env;
     decodeSearch := decodeSearch env; decodeActivity := decodeActivity env;
     decodeRetell := decodeRetell env; decodeObject := decodeObject env;
     bindLead := bindLead env; atoiError := atoiError env |}.

(** Everything is reachable and the call platform answers with [call_55]. *)
Definition onlineEnv : Env :=
  withRetellAnswer (sampleEnv (fun _ => true) jane)
    {| CallID := "call_55"; Status := "registered" |}.

(** The CRM answers every request with status 404. *)
Definition notFoundEnv : Env :=
  withTransport onlineEnv (fun _ _ => Response 404 "{}" None).

(** The CRM answers every activity with [success = false]. *)
Definition rejectingEnv : Env :=
  withActivityAnswer onlineEnv {| activity_Success := false; activity_Data := None |}.

(** A process environment with the three keys set, and one without. *)
Definition keysSet : gmap string string :=
  {[ "PIPEDRIVE_API_KEY" := "pd-token"; "RETELL_API_KEY" := "key_1";
     "RETELL_ASSISTANT_ID" := "agent_1" ]}.

(** * Properties *)

(** ** Phone normalization *)

Lemma HasPrefix_plus_not_one (s : string) :
  strings.HasPrefix s "+" = true -> strings.HasPrefix s "1" = false.
Proof.
  unfold strings.HasPrefix. destruct s as [|a s]; cbn [String.prefix]; [discriminate|].
  destruct (ascii_dec "+" a) as [<-|Hne]; [reflexivity|discriminate].
Qed.

(** What the code computes: the second branch of [extractPhoneFromPerson]
    is never taken, so a number without a leading [+] always gets [+1]. *)
Lemma extractPhoneFromPerson_spec (person : PipedrivePerson) (ph : PipedrivePhone)
  (rest : list PipedrivePhone) :
  Phone person = ph :: rest ->
  extractPhoneFromPerson person =
    if strings.HasPrefix (stripSeparators (Value ph)) "+"
    then stripSeparators (Value ph)
    else "+1" +:+ stripSeparators (Value ph).
Proof.
  intros HP. unfold extractPhoneFromPerson. rewrite HP.
  fold (stripSeparators (Value ph)).
  destruct (strings.HasPrefix (stripSeparators (Value ph)) "+") eqn:Hplus; simpl.
  - now rewrite (HasPrefix_plus_not_one _ Hplus).
  - reflexivity.
Qed.

Lemma extractPhoneFromPerson_empty (person : PipedrivePerson) :
  extractPhoneFromPerson person = "" <-> Phone person = [].
Proof.
  split.
  - destruct (Phone person) as [|ph rest] eqn:HP; [reflexivity|].
    rewrite (extractPhoneFromPerson_spec _ _ _ HP).
    destruct (strings.HasPrefix (stripSeparators (Value ph)) "+") eqn:Hplus.
    + intros He. rewrite He in Hplus. discriminate.
    + discriminate.
  - intros HP. unfold extractPhoneFromPerson. now rewrite HP.
Qed.

(** C1, at the input where the code leaves the claim: a number with a
    leading [1] and no [+] is normalized to [+1] followed by the whole
    number, not to [+] followed by the number; the two other examples of
    the claim come out as it says. *)
Theorem extractPhone_leading_one :
  extractPhoneFromPerson (onePhone "15551234567") = "+115551234567"
  /\ extractPhoneFromPerson (onePhone "15551234567") <> "+15551234567"
  /\ extractPhoneFromPerson (onePhone "(555) 123-4567") = "+15551234567"
  /\ extractPhoneFromPerson (onePhone "+15551234567") = "+15551234567".
Proof. repeat split; try reflexivity. discriminate. Qed.

(** ** The monad *)

Section Laws.

Context {A B : Type}.

Lemma bind_Ok (m : Go A) (k : A -> Go B) w a w' :
  m w = (Ok a, w') -> bind m k w = k a w'.
Proof. unfold bind. now intros ->. Qed.

Lemma bind_Err (m : Go A) (k : A -> Go B) w e w' :
  m w = (Err e, w') -> bind m k w = (Err e, w').
Proof. unfold bind. now intros ->. Qed.

Lemma bind_Panic (m : Go A) (k : A -> Go B) w w' :
  m w = (Panic, w') -> bind m k w = (Panic, w').
Proof. unfold bind. now intros ->. Qed.

Lemma wrap_Ok pre (m : Go A) w a w' :
  m w = (Ok a, w') -> wrap pre m w = (Ok a, w').
Proof. unfold wrap. now intros ->. Qed.

Lemma wrap_Err pre (m : Go A) w e w' :
  m w = (Err e, w') -> wrap pre m w = (Err (pre +:+ e), w').
Proof. unfold wrap. now intros ->. Qed.

Lemma attempt_Ok (m : Go A) w a w' :
  m w = (Ok a, w') -> attempt m w = (Ok (inl a), w').
Proof. unfold attempt. now intros ->. Qed.

Lemma attempt_Err (m : Go A) w e w' :
  m w = (Err e, w') -> attempt m w = (Ok (inr e), w').
Proof. unfold attempt. now intros ->. Qed.

End Laws.

(** ** What a call leaves untouched *)

Section Frame.

Variable env : Env.

Context {A B : Type} (cfg : Config) (P : Request -> Prop).

Lemma frame_nothing (m : Go A) :
  (forall w, exists r, m w = (r, w)) -> frame cfg P m.
Proof.
  intros Hm w r w' _ Hrun. destruct (Hm w) as [r0 Hr0].
  rewrite Hr0 in Hrun. injection Hrun as <- <-.
  split; [reflexivity|]. exists []. split; [now rewrite app_nil_r | constructor].
Qed.

Lemma frame_ret (a : A) : frame cfg P (ret a).
Proof. apply frame_nothing. intros w. now exists (Ok a). Qed.

Lemma frame_fail e : frame cfg P (@fail A e).
Proof. apply frame_nothing. intros w. now exists (Err e). Qed.

Lemma frame_panic : frame cfg P (@panic A).
Proof. apply frame_nothing. intros w. now exists Panic. Qed.

Lemma frame_bind (m : Go A) (k : A -> Go B) :
  frame cfg P m -> (forall a, frame cfg P (k a)) -> frame cfg P (bind m k).
Proof.
  intros Hm Hk w r w' Hcfg Hrun. unfold bind in Hrun.
  destruct (m w) as [[a|e|] w1] eqn:Hmw;
    destruct (Hm _ _ _ Hcfg Hmw) as (Hs1 & l1 & Hl1 & HP1).
  - assert (Hcfg1 : config (service w1) = cfg) by now rewrite Hs1.
    destruct (Hk a _ _ _ Hcfg1 Hrun) as (Hs2 & l2 & Hl2 & HP2).
    split; [congruence|]. exists (l1 ++ l2). split.
    + now rewrite Hl2, Hl1, app_assoc.
    + now apply Forall_app.
  - injection Hrun as <- <-. eauto.
  - injection Hrun as <- <-. eauto.
Qed.

Lemma frame_getConfig (k : Config -> Go B) :
  frame cfg P (k cfg) -> frame cfg P (bind getConfig k).
Proof. intros Hk w r w' Hcfg Hrun. unfold bind, getConfig in Hrun. rewrite Hcfg in Hrun. eauto. Qed.

Lemma frame_attempt (m : Go A) : frame cfg P m -> frame cfg P (attempt m).
Proof.
  intros Hm w r w' Hcfg Hrun. unfold attempt in Hrun.
  destruct (m w) as [[a|e|] w1] eqn:Hmw; injection Hrun as <- <-; eauto.
Qed.

Lemma frame_wrap pre (m : Go A) : frame cfg P m -> frame cfg P (wrap pre m).
Proof.
  intros Hm w r w' Hcfg Hrun. unfold wrap in Hrun.
  destruct (m w) as [[a|e|] w1] eqn:Hmw; injection Hrun as <- <-; eauto.
Qed.

Lemma frame_Do req : P req -> frame cfg P (Do env req).
Proof.
  intros HP w r w' _ Hrun. cbv in Hrun. injection Hrun as <- <-.
  split; [reflexivity|]. exists [req]. split; [reflexivity | now constructor].
Qed.

Lemma frame_tick : frame cfg P tick.
Proof.
  intros w r w' _ Hrun. cbv in Hrun. injection Hrun as <- <-.
  split; [reflexivity|]. exists []. split; [now rewrite app_nil_r | constructor].
Qed.

End Frame.

Ltac frame_step :=
  first
    [ apply frame_ret | apply frame_fail | apply frame_panic
    | apply frame_getConfig | apply frame_attempt | apply frame_wrap
    | apply frame_tick
    | apply frame_bind; [ | intros ? ]
    | match goal with
      | |- frame _ _ (match ?x with _ => _ end) => destruct x
      end ].

Section Calls.

Variable env : Env.
Variable cfg : Config.
Variable P : Request -> Prop.

(** One call of [makePipedriveRequest], step by step. *)
Lemma makePipedriveRequest_run method endpoint body w :
  makePipedriveRequest env method endpoint body w =
    let req := pipedriveRequest (config (service w)) method endpoint body in
    match newRequestError env req with
    | Some e => (Err ("failed to create request: " +:+ e), w)
    | None =>
        let w' := {| service := service w; sent := sent w ++ [req];
                     ticks := ticks w |} in
        match transport env (sent w) req with
        | DoError e => (Err ("failed to make request: " +:+ e), w')
        | Response status bytes _ => (Ok (status, bytes), w')
        end
    end.
Proof.
  unfold makePipedriveRequest, bind, getConfig. cbn zeta.
  destruct (newRequestError env _); [reflexivity|].
  unfold Do, bind, getSent, sentMore, ret. cbn [sent service ticks].
  now destruct (transport env _ _).
Qed.

Lemma frame_makePipedriveRequest method endpoint body :
  P (pipedriveRequest cfg method endpoint body) ->
  frame cfg P (makePipedriveRequest env method endpoint body).
Proof.
  intros HP. unfold makePipedriveRequest. apply frame_getConfig. cbn zeta.
  destruct (newRequestError env _); [apply frame_fail|].
  apply frame_bind; [now apply frame_Do|]. intros []; repeat frame_step.
Qed.

Lemma frame_UpdatePersonWithCallData personID transcript duration date :
  P (pipedriveRequest cfg "PUT" ("/persons/" +:+ strconv.FormatInt personID)
       (Some (callDataFields transcript duration date))) ->
  frame cfg P (UpdatePersonWithCallData env personID transcript duration date).
Proof.
  intros HP. unfold UpdatePersonWithCallData. cbn zeta.
  apply frame_bind; [now apply frame_wrap, frame_makePipedriveRequest|].
  intros [status bytes]. repeat frame_step.
Qed.

Lemma frame_GetPersonByID personID :
  P (pipedriveRequest cfg "GET" ("/persons/" +:+ strconv.FormatInt personID) None) ->
  frame cfg P (GetPersonByID env personID).
Proof.
  intros HP. unfold GetPersonByID. cbn zeta.
  apply frame_bind; [now apply frame_makePipedriveRequest|].
  intros [status bytes]. repeat frame_step.
Qed.

Lemma frame_CreateRetellCall phoneNumber personName leadTitle :
  P (retellRequest cfg phoneNumber personName leadTitle) ->
  frame cfg P (CreateRetellCall env phoneNumber personName leadTitle).
Proof.
  intros HP. unfold CreateRetellCall. apply frame_getConfig. cbn zeta.
  destruct (_ || _); [apply frame_fail|].
  destruct (newRequestError env _); [apply frame_fail|].
  apply frame_bind; [now apply frame_Do|].
  intros [e|status bytes [e|]]; repeat frame_step.
Qed.

Lemma frame_FindOrCreateContactByPhone phone :
  P (pipedriveRequest cfg "GET" ("/persons/search?term=" +:+ phone +:+ "&fields=phone") None) ->
  P (pipedriveRequest cfg "POST" "/persons" (Some (unknownCallerData phone))) ->
  frame cfg P (FindOrCreateContactByPhone env phone).
Proof.
  intros HP1 HP2. unfold FindOrCreateContactByPhone. apply frame_getConfig. cbn zeta.
  destruct (HasPipedriveConfig cfg).
  - apply frame_bind; [now apply frame_wrap, frame_makePipedriveRequest|].
    intros resp. destruct (decodeSearch env _) as [sr|e]; [|apply frame_fail].
    destruct (search_Success sr), (search_Items sr);
      try apply frame_ret;
      (apply frame_bind; [now apply frame_wrap, frame_makePipedriveRequest|]);
      intros resp2; repeat frame_step.
  - unfold newUUID. repeat frame_step.
Qed.

End Calls.

Lemma HasPrefix_append (pre s : string) : strings.HasPrefix (pre +:+ s) pre = true.
Proof.
  unfold strings.HasPrefix. induction pre as [|a pre IH].
  - now destruct s.
  - change (String.prefix (String a pre) (String a (pre +:+ s)) = true).
    cbn [String.prefix]. destruct (ascii_dec a a); [exact IH|congruence].
Qed.

Lemma nonEmpty_true (s : string) : s <> "" -> nonEmpty s = true.
Proof. now destruct s. Qed.

(** ** The correlation store *)

(** C5: storing a mapping and then resolving the same call identifier
    finds it ([found = true]) with exactly the stored person name, phone
    number, lead title and person id. *)
Theorem store_then_get_roundtrip (env : Env)
  (callID personName phoneNumber leadTitle : string) (personID : Z) (w : World) :
  exists w1 mapping,
    storeCallMapping env callID personName phoneNumber leadTitle personID w = (Ok tt, w1)
    /\ getCallMapping callID w1 = (Ok (mapping, true), w1)
    /\ PersonName mapping = personName
    /\ PhoneNumber mapping = phoneNumber
    /\ LeadTitle mapping = leadTitle
    /\ PersonID mapping = personID.
Proof.
  eexists. eexists. split; [reflexivity|].
  unfold getCallMapping, bind, getMappings. cbn [service callMappings].
  rewrite lookup_insert_eq. repeat split; reflexivity.
Qed.

(** Resolving an identifier that was never recorded gives [found = false]
    and the zero mapping. *)
Lemma getCallMapping_miss (callID : string) (w : World) :
  callMappings (service w) !! callID = None ->
  getCallMapping callID w = (Ok (zeroCallMapping, false), w).
Proof. intros H. unfold getCallMapping, bind, getMappings. now rewrite H. Qed.

Lemma getCallMapping_hit (callID : string) (mapping : CallMapping) (w : World) :
  callMappings (service w) !! callID = Some mapping ->
  getCallMapping callID w = (Ok (mapping, true), w).
Proof. intros H. unfold getCallMapping, bind, getMappings. now rewrite H. Qed.

(** ** Lead created *)

(** C6: a lead event whose action is not [create] is a successful no-op:
    the processor returns nil and the state is the one it started in, so
    no request was handed to the HTTP client and the store is unchanged. *)
Theorem non_create_action_is_noop (env : Env) (payload : PipedriveLeadWebhookPayload)
  (w : World) :
  Meta_Action payload <> "create" ->
  ProcessPipedriveLead env payload w = (Ok tt, w).
Proof.
  intros Hact. apply String.eqb_neq in Hact.
  unfold ProcessPipedriveLead, bind, getConfig. now rewrite Hact.
Qed.

(** A person lookup that succeeds has sent exactly its one request. *)
Lemma GetPersonByID_Ok (env : Env) (personID : Z) (w w1 : World)
  (fetched : option PipedrivePerson) :
  GetPersonByID env personID w = (Ok fetched, w1) ->
  w1 = {| service := service w;
          sent := sent w ++ [pipedriveRequest (config (service w)) "GET"
                               ("/persons/" +:+ strconv.FormatInt personID) None];
          ticks := ticks w |}.
Proof.
  unfold GetPersonByID. cbn zeta. unfold bind at 1.
  rewrite makePipedriveRequest_run. cbn zeta.
  destruct (newRequestError env _); [discriminate|].
  destruct (transport env _ _) as [e|status bytes re]; [discriminate|].
  destruct (negb (status =? 200)); [discriminate|].
  destruct (decodePerson env bytes) as [result|e]; [|discriminate].
  destruct (negb (person_Success result)); [discriminate|].
  now intros [= _ <-].
Qed.

(** C7: a [create] event that passes validation and whose fetched person
    has an empty phone list is skipped: the handler answers 200, the
    service (and with it the store) is unchanged, and the only request
    sent is the lookup of the person, so no call was requested. *)
Theorem lead_without_phone_is_skipped (env : Env) (raw : string)
  (payload : PipedriveLeadWebhookPayload) (person : PipedrivePerson) (w w1 : World) :
  bindLead env raw = Parsed payload ->
  Data_ID payload <> "" ->
  Data_PersonID payload <> 0 ->
  Meta_Action payload = "create" ->
  HasPipedriveConfig (config (service w)) = true ->
  HasRetellConfig (config (service w)) = true ->
  GetPersonByID env (Data_PersonID payload) w = (Ok (Some person), w1) ->
  Phone person = [] ->
  exists resp,
    leadWebhook env raw w = (Ok resp, w1)
    /\ StatusCode resp = 200 /\ Success resp = true
    /\ ProcessPipedriveLead env payload w = (Ok tt, w1)
    /\ service w1 = service w
    /\ sent w1 = sent w ++ [pipedriveRequest (config (service w)) "GET"
                              ("/persons/" +:+ strconv.FormatInt (Data_PersonID payload))
                              None].
Proof.
  intros Hbind Hid Hpid Hact Hpd Hrt Hget Hphone.
  assert (Hproc : ProcessPipedriveLead env payload w = (Ok tt, w1)).
  { unfold ProcessPipedriveLead. unfold bind at 1. unfold getConfig.
    rewrite Hact, String.eqb_refl, Hpd, Hrt. cbn [negb andb].
    rewrite (bind_Ok _ _ _ _ _ (wrap_Ok _ _ _ _ _ Hget)).
    unfold extractPhoneFromPerson. now rewrite Hphone. }
  eexists. split; [|split; [|split; [|split; [exact Hproc|]]]].
  - unfold leadWebhook, PipedriveLeadWebhookHandler. rewrite Hbind.
    apply nonEmpty_true in Hid. apply Z.eqb_neq in Hpid.
    rewrite Hid, Hpid. cbn [negb orb].
    rewrite (bind_Ok _ _ _ _ _ (attempt_Ok _ _ _ _ Hproc)). reflexivity.
  - reflexivity.
  - reflexivity.
  - apply GetPersonByID_Ok in Hget. subst w1. split; reflexivity.
Qed.

(** C9: a lead webhook whose body has an empty [data.id] or a zero
    [data.person_id] is answered 400 with [success = false], whatever
    the processor is, in the state the request arrived in (the processor
    is not run); a body that passes validation and whose processing
    succeeds is answered 200. *)
Theorem lead_handler_validation (env : Env)
  (process : PipedriveLeadWebhookPayload -> Go unit) (raw : string)
  (payload : PipedriveLeadWebhookPayload) (w : World) :
  bindLead env raw = Parsed payload ->
  (Data_ID payload = "" \/ Data_PersonID payload = 0 ->
   exists resp,
     PipedriveLeadWebhookHandler env process raw w = (Ok resp, w)
     /\ StatusCode resp = 400 /\ Success resp = false)
  /\ (Data_ID payload <> "" -> Data_PersonID payload <> 0 ->
      forall w', process payload w = (Ok tt, w') ->
      exists resp,
        PipedriveLeadWebhookHandler env process raw w = (Ok resp, w')
        /\ StatusCode resp = 200 /\ Success resp = true).
Proof.
  intros Hbind. unfold PipedriveLeadWebhookHandler. rewrite Hbind. split.
  - intros [Hid|Hpid].
    + rewrite Hid. cbn [nonEmpty negb orb]. eexists.
      split; [reflexivity|]. split; reflexivity.
    + rewrite Hpid, Z.eqb_refl, orb_true_r. eexists.
      split; [reflexivity|]. split; reflexivity.
  - intros Hid Hpid w' Hproc.
    apply nonEmpty_true in Hid. apply Z.eqb_neq in Hpid.
    rewrite Hid, Hpid. cbn [negb orb].
    rewrite (bind_Ok _ _ _ _ _ (attempt_Ok _ _ _ _ Hproc)).
    eexists. split; [reflexivity|]. split; reflexivity.
Qed.

(** C4: when the person has a phone number and the request that creates
    the call fails, the processor still returns nil, and the store it
    leaves is the store it found plus one record, under the identifier
    [failed-] followed by the Unix time read at that moment. *)
Theorem failed_call_is_still_recorded (env : Env) (payload : PipedriveLeadWebhookPayload)
  (person : PipedrivePerson) (w w1 w2 : World) (e : string) :
  Meta_Action payload = "create" ->
  HasPipedriveConfig (config (service w)) = true ->
  HasRetellConfig (config (service w)) = true ->
  GetPersonByID env (Data_PersonID payload) w = (Ok (Some person), w1) ->
  extractPhoneFromPerson person <> "" ->
  CreateRetellCall env (extractPhoneFromPerson person) (Name person)
    (Data_Title payload) w1 = (Err e, w2) ->
  let callID := "failed-" +:+ strconv.FormatInt (clock env (ticks w2)) in
  exists w',
    ProcessPipedriveLead env payload w = (Ok tt, w')
    /\ callMappings (service w') =
         <[callID := {| PersonName := Name person;
                        PhoneNumber := extractPhoneFromPerson person;
                        LeadTitle := Data_Title payload;
                        PersonID := Data_PersonID payload;
                        Timestamp := clock env (S (ticks w2)) |}]>
           (callMappings (service w))
    /\ callID <> ""
    /\ strings.HasPrefix callID "failed-" = true.
Proof.
  intros Hact Hpd Hrt Hget Hphone Hcall callID.
  destruct (frame_GetPersonByID env _ (fun _ => True) _ I _ _ _ eq_refl Hget)
    as [Hs1 _].
  destruct (frame_CreateRetellCall env _ (fun _ => True) _ _ _ I _ _ _ eq_refl Hcall)
    as [Hs2 _].
  unfold ProcessPipedriveLead. unfold bind at 1. unfold getConfig.
  rewrite Hact, String.eqb_refl, Hpd, Hrt. cbn [negb andb].
  rewrite (bind_Ok _ _ _ _ _ (wrap_Ok _ _ _ _ _ Hget)).
  rewrite (nonEmpty_true _ Hphone). cbn [negb].
  rewrite (bind_Ok _ _ _ _ _ (attempt_Err _ _ _ _ Hcall)).
  fold callID.
  unfold storeCallMapping, timeNow.
  unfold bind, tick, ret, getMappings, setMappings, attempt.
  cbn [service sent ticks config callMappings].
  rewrite makePipedriveRequest_run. cbn zeta.
  cbn [service sent ticks config callMappings].
  assert (Hstore : callMappings (service w2) = callMappings (service w))
    by now rewrite Hs2, Hs1.
  destruct (newRequestError env _);
    [|destruct (transport env _ _)];
    (eexists; split; [reflexivity|];
     cbn [service callMappings]; rewrite Hstore;
     split; [reflexivity|]; split; [discriminate|apply HasPrefix_append]).
Qed.

(** ** Call analyzed *)

Lemma append_inj_l (a b c : string) : a +:+ b = a +:+ c -> b = c.
Proof.
  induction a as [|x a IH]; [easy|].
  change (String x (a +:+ b) = String x (a +:+ c) -> b = c).
  intros [= H]. auto.
Qed.

Lemma callDataRequest_not_create env cfg payload personID :
  ~ createsContact cfg (callDataRequest env cfg payload personID).
Proof. intros [Hm _]. discriminate Hm. Qed.

Lemma activityRequest_not_create env cfg payload personID note :
  ~ createsContact cfg (activityRequest env cfg payload personID note).
Proof. intros [_ Hu]. apply append_inj_l in Hu. discriminate Hu. Qed.

Lemma noteRequest_not_create cfg payload personID :
  ~ createsContact cfg (noteRequest cfg payload personID).
Proof. intros [_ Hu]. apply append_inj_l in Hu. discriminate Hu. Qed.

Ltac sent_eq :=
  cbn [service sent ticks];
  first [ rewrite <- !app_assoc; reflexivity
        | reflexivity
        | symmetry; apply app_nil_r ].

Ltac reduce :=
  cbn beta iota zeta; unfold fail, ret, panic; cbn beta iota zeta;
  cbn [service sent ticks config callMappings fst snd negb].

(** One step of a run: the next request, or the next case distinction
    on what the environment answers. *)
Ltac step :=
  reduce;
  first
    [ rewrite makePipedriveRequest_run; reduce
    | match goal with
      | |- context [match newRequestError ?e ?r with _ => _ end] =>
          destruct (newRequestError e r) eqn:?
      | |- context [match transport ?e ?h ?r with _ => _ end] =>
          destruct (transport e h r) eqn:?
      | |- context [match decodeActivity ?e ?b with _ => _ end] =>
          destruct (decodeActivity e b) eqn:?
      | |- context [match decodeSearch ?e ?b with _ => _ end] =>
          destruct (decodeSearch e b) eqn:?
      | |- context [match decodePerson ?e ?b with _ => _ end] =>
          destruct (decodePerson e b) eqn:?
      | |- context [if negb ?b then _ else _] => is_var b; destruct b eqn:?
      | |- context [if negb (?x =? ?y) then _ else _] => destruct (x =? y) eqn:?
      | |- context [if negb (?f ?x) then _ else _] => destruct (f x) eqn:?
      | |- context [match activity_Data ?x with _ => _ end] =>
          destruct (activity_Data x) eqn:?
      | |- context [match search_Success ?x with _ => _ end] =>
          destruct (search_Success x) eqn:?
      | |- context [match search_Items ?x with _ => _ end] =>
          destruct (search_Items x) eqn:?
      | |- context [match person_Success ?x with _ => _ end] =>
          destruct (person_Success x) eqn:?
      | |- context [match person_Data ?x with _ => _ end] =>
          destruct (person_Data x) eqn:?
      | |- context [match strconv.Atoi ?x with _ => _ end] =>
          destruct (strconv.Atoi x) eqn:?
      end ].

Ltac one_of :=
  repeat first
    [ apply List.Forall_nil
    | apply List.Forall_cons;
      [ first [ left; reflexivity | right; left; reflexivity
              | right; right; reflexivity ] | ]
    | apply Forall_app; split ].

Ltac is_in :=
  repeat first
    [ apply in_or_app; left; solve [is_in]
    | apply in_or_app; right; solve [is_in]
    | left; reflexivity
    | right ].

(** C2: when the call identifier of a call-analyzed event is in the
    store, the service is left as it is and every request sent is one of
    three, all for the stored person: the update of that person's fields,
    the completed activity with [person_id] the stored [PersonID], and the
    transcript note. None of them creates a contact; and the activity is
    sent whenever Pipedrive is configured and [http.NewRequest] accepts
    it. *)
Theorem analyzed_hit_uses_stored_person (env : Env) (payload : RetellCallAnalyzedPayload)
  (w : World) (mapping : CallMapping) :
  callMappings (service w) !! Call_CallID payload = Some mapping ->
  let cfg := config (service w) in
  let update := callDataRequest env cfg payload (PersonID mapping) in
  let activity :=
    activityRequest env cfg payload (PersonID mapping)
      (buildCallAnalyzedNoteWithPerson env payload (startTimeOf payload)
         (endTimeOf payload) (durationOf payload) (PersonName mapping)
         (LeadTitle mapping) (PhoneNumber mapping)) in
  let note := noteRequest cfg payload (PersonID mapping) in
  exists r w' new,
    ProcessRetellCallAnalyzed env payload w = (r, w')
    /\ service w' = service w
    /\ sent w' = sent w ++ new
    /\ Forall (fun req => req = update \/ req = activity \/ req = note) new
    /\ field "person_id" (body activity) = Some (JNumber (PersonID mapping))
    /\ field "done" (body activity) = Some (JNumber 1)
    /\ Forall (fun req => ~ createsContact cfg req) new
    /\ (HasPipedriveConfig cfg = true -> newRequestError env activity = None ->
        In activity new).
Proof.
  intros Hhit cfg update activity note.
  assert (Hnc : forall req, req = update \/ req = activity \/ req = note ->
                            ~ createsContact cfg req).
  { intros req [-> | [-> | ->]];
      [apply callDataRequest_not_create | apply activityRequest_not_create
      | apply noteRequest_not_create]. }
  cut (exists r w' new,
         ProcessRetellCallAnalyzed env payload w = (r, w')
         /\ service w' = service w
         /\ sent w' = sent w ++ new
         /\ Forall (fun req => req = update \/ req = activity \/ req = note) new
         /\ (HasPipedriveConfig cfg = true -> newRequestError env activity = None ->
             In activity new)).
  { intros (r & w' & new & Hrun & Hs & Hsent & Hall & Hin).
    exists r, w', new. repeat split; try assumption; try reflexivity.
    eapply Forall_impl; [exact Hall|exact Hnc]. }
  subst update activity note cfg.
  unfold callDataRequest, activityRequest, noteRequest in *.
  unfold ProcessRetellCallAnalyzed. unfold bind at 1. unfold getConfig.
  destruct (HasPipedriveConfig (config (service w))) eqn:Hpd.
  2:{ exists (Ok tt), w, []. repeat split; try sent_eq; [constructor|discriminate]. }
  rewrite (bind_Ok _ _ _ _ _ (getCallMapping_hit _ _ _ Hhit)). cbn [negb].
  unfold UpdatePersonWithCallData, attempt, wrap, bind. cbn zeta.
  repeat step;
    (do 3 eexists; split; [reflexivity|]; split; [reflexivity|];
     split; [sent_eq|]; split; [one_of|]; intros _ Hacc;
     first [ congruence | solve [is_in] ]).
Qed.

(** C10: when Pipedrive is configured and the call identifier is not in
    the store, the first request is the person search with the constant
    term [Unknown], whatever the payload holds; and when that search is
    answered with no match, the next request creates a contact named
    [Unknown Caller] whose phone is the string [Unknown]. *)
Theorem fallback_lookup_uses_unknown (env : Env) (payload : RetellCallAnalyzedPayload)
  (w : World) :
  HasPipedriveConfig (config (service w)) = true ->
  callMappings (service w) !! Call_CallID payload = None ->
  let search := unknownSearchRequest (config (service w)) in
  let create := unknownCreateRequest (config (service w)) in
  exists r w',
    ProcessRetellCallAnalyzed env payload w = (r, w')
    /\ (forall e, newRequestError env search = Some e -> sent w' = sent w)
    /\ (newRequestError env search = None ->
        exists rest, sent w' = sent w ++ search :: rest)
    /\ (forall status bytes readErr found,
          newRequestError env search = None ->
          transport env (sent w) search = Response status bytes readErr ->
          decodeSearch env bytes = Parsed found ->
          search_Success found = false \/ search_Items found = [] ->
          newRequestError env create = None ->
          exists rest, sent w' = sent w ++ search :: create :: rest).
Proof.
  intros Hpd Hmiss search create. subst search create.
  unfold unknownSearchRequest, unknownCreateRequest.
  unfold ProcessRetellCallAnalyzed. unfold bind at 1. unfold getConfig. rewrite Hpd.
  rewrite (bind_Ok _ _ _ _ _ (getCallMapping_miss _ _ Hmiss)). cbn [negb].
  unfold FindOrCreateContactByPhone, UpdatePersonWithCallData, unknownCallerData.
  unfold attempt, wrap, bind, getConfig. rewrite Hpd. cbn zeta.
  change ("/persons/search?term=" +:+ "Unknown" +:+ "&fields=phone")
    with "/persons/search?term=Unknown&fields=phone".
  repeat step;
    (do 2 eexists; split; [reflexivity|]; split; [|split];
     [ intros ? He0; first [ congruence | reflexivity ]
     | intros He0; first [ congruence | eexists; sent_eq ]
     | intros ? ? ? ? H1 H2 H3 H4 H5;
       first [ congruence
             | exfalso; destruct H4; congruence
             | eexists; sent_eq ] ]).
Qed.

(** A miss, once the fallback contact is there: the update of the
    person's fields is attempted, then the activity is posted, and the
    answer to the activity request alone decides the result. *)
Lemma analyzed_miss_run (env : Env) (payload : RetellCallAnalyzedPayload)
  (w w1 : World) (contact : Contact) (personID : Z) :
  HasPipedriveConfig (config (service w)) = true ->
  callMappings (service w) !! Call_CallID payload = None ->
  FindOrCreateContactByPhone env "Unknown" w = (Ok contact, w1) ->
  strconv.Atoi (contact_ID contact) = Some personID ->
  let cfg := config (service w) in
  let update := callDataRequest env cfg payload personID in
  let activity :=
    activityRequest env cfg payload personID
      (buildCallAnalyzedNote env payload (startTimeOf payload) (endTimeOf payload)
         (durationOf payload)) in
  let before :=
    match newRequestError env update with Some _ => [] | None => [update] end in
  newRequestError env activity = None ->
  ProcessRetellCallAnalyzed env payload w =
    (match transport env (sent w1 ++ before) activity with
     | DoError e =>
         Err ("failed to create call activity: " +:+ "failed to make request: " +:+ e)
     | Response _ _ _ => Ok tt
     end,
     {| service := service w; sent := sent w1 ++ before ++ [activity];
        ticks := ticks w1 |}).
Proof.
  intros Hpd Hmiss Hfind Hatoi cfg update activity before Hacc.
  destruct (frame_FindOrCreateContactByPhone env _ (fun _ => True) _ I I _ _ _
              eq_refl Hfind) as [Hs1 _].
  assert (Hcfg1 : config (service w1) = config (service w)) by now rewrite Hs1.
  subst before activity update cfg. unfold callDataRequest, activityRequest in *.
  unfold ProcessRetellCallAnalyzed. unfold bind at 1. unfold getConfig. rewrite Hpd.
  rewrite (bind_Ok _ _ _ _ _ (getCallMapping_miss _ _ Hmiss)). cbn [negb].
  rewrite (bind_Ok _ _ _ _ _ (wrap_Ok _ _ _ _ _ Hfind)). rewrite Hatoi.
  unfold UpdatePersonWithCallData, attempt, wrap, bind. cbn zeta.
  rewrite makePipedriveRequest_run. cbn zeta. rewrite Hcfg1.
  destruct (newRequestError env (pipedriveRequest _ "PUT" _ _)) eqn:Hupd.
  - reduce. rewrite makePipedriveRequest_run. reduce. rewrite Hcfg1, Hacc, Hs1.
    rewrite app_nil_r. now destruct (transport env _ _).
  - destruct (transport env (sent w1) _) as [e|st bs re]; reduce;
      [|destruct (st =? 200); reduce];
      (rewrite makePipedriveRequest_run; reduce; rewrite Hcfg1, Hacc, Hs1;
       rewrite <- app_assoc; now destruct (transport env _ _)).
Qed.

(** C3, as the code has it: with Pipedrive configured and the call
    identifier not in the store, the processor takes the fallback path.
    An error of [FindOrCreateContactByPhone("Unknown")] is returned as an
    error. When it gives a contact with a numeric identifier, the last
    request sent is a completed activity ([done = 1]) for that contact,
    with the note that carries no person details; the processor returns
    nil when that request is answered, and an error when it is not. *)
Theorem analyzed_miss_falls_back (env : Env) (payload : RetellCallAnalyzedPayload)
  (w : World) :
  HasPipedriveConfig (config (service w)) = true ->
  callMappings (service w) !! Call_CallID payload = None ->
  (forall e w1,
     FindOrCreateContactByPhone env "Unknown" w = (Err e, w1) ->
     ProcessRetellCallAnalyzed env payload w
     = (Err ("failed to find/create contact: " +:+ e), w1))
  /\ (forall contact w1 personID,
        FindOrCreateContactByPhone env "Unknown" w = (Ok contact, w1) ->
        strconv.Atoi (contact_ID contact) = Some personID ->
        let cfg := config (service w) in
        let update := callDataRequest env cfg payload personID in
        let activity :=
          activityRequest env cfg payload personID
            (buildCallAnalyzedNote env payload (startTimeOf payload)
               (endTimeOf payload) (durationOf payload)) in
        let before :=
          match newRequestError env update with Some _ => [] | None => [update] end in
        newRequestError env activity = None ->
        exists r w',
          ProcessRetellCallAnalyzed env payload w = (r, w')
          /\ service w' = service w
          /\ sent w' = sent w1 ++ before ++ [activity]
          /\ field "person_id" (body activity) = Some (JNumber personID)
          /\ field "done" (body activity) = Some (JNumber 1)
          /\ (forall status bytes readErr,
                transport env (sent w1 ++ before) activity
                = Response status bytes readErr -> r = Ok tt)
          /\ (forall e,
                transport env (sent w1 ++ before) activity = DoError e ->
                r = Err ("failed to create call activity: "
                         +:+ "failed to make request: " +:+ e))).
Proof.
  intros Hpd Hmiss. split.
  - intros e w1 Hfind.
    unfold ProcessRetellCallAnalyzed. unfold bind at 1. unfold getConfig. rewrite Hpd.
    rewrite (bind_Ok _ _ _ _ _ (getCallMapping_miss _ _ Hmiss)). cbn [negb].
    now rewrite (bind_Err _ _ _ _ _ (wrap_Err _ _ _ _ _ Hfind)).
  - intros contact w1 personID Hfind Hatoi cfg update activity before Hacc.
    pose proof (analyzed_miss_run env payload w w1 contact personID
                  Hpd Hmiss Hfind Hatoi Hacc) as Hrun.
    cbv zeta in Hrun. fold cfg in Hrun. fold update in Hrun. fold activity in Hrun.
    fold before in Hrun.
    eexists. eexists. split; [exact Hrun|].
    cbn [service sent]. repeat split; try reflexivity.
    + intros status bytes readErr Hresp. now rewrite Hresp.
    + intros e Hresp. now rewrite Hresp.
Qed.

(** ** The contact identifier on the fallback path *)

Lemma string_of_uint_head (d : Decimal.uint) :
  d <> Decimal.Nil ->
  exists c s, NilZero.string_of_uint d = String c s
              /\ Ascii.eqb c "+" = false /\ Ascii.eqb c "-" = false.
Proof.
  destruct d; intros H; try congruence;
    cbn [NilZero.string_of_uint NilEmpty.string_of_uint];
    eexists; eexists; (split; [reflexivity|split; reflexivity]).
Qed.

Lemma Atoi_digits (d : Decimal.uint) :
  d <> Decimal.Nil ->
  strconv.Atoi (NilZero.string_of_uint d) =
    if strconv.isInt (Z.of_uint d) then Some (Z.of_uint d) else None.
Proof.
  intros Hnn. destruct (string_of_uint_head d Hnn) as (c & s & Hs & Hp & Hm).
  pose proof (NilZero.usu d Hnn) as Hu. rewrite Hs in Hu.
  unfold strconv.Atoi. rewrite Hs, Hp, Hm, Hu. reflexivity.
Qed.

(** [strconv.Atoi] reads back what [%d] printed, for every [int]. *)
Lemma Atoi_FormatInt (z : Z) :
  strconv.isInt z = true -> strconv.Atoi (strconv.FormatInt z) = Some z.
Proof.
  intros Hr. unfold strconv.FormatInt.
  destruct z as [|p|p]; [reflexivity| |];
    pose proof (DecimalPos.Unsigned.to_uint_nonnil p) as Hnn;
    cbn [Z.to_int NilZero.string_of_int].
  - rewrite (Atoi_digits _ Hnn). unfold Z.of_uint.
    rewrite DecimalPos.Unsigned.of_to. cbn [Z.of_N]. now rewrite Hr.
  - unfold strconv.Atoi.
    change (Ascii.eqb "-" "+") with false. change (Ascii.eqb "-" "-") with true.
    cbn iota. rewrite (NilZero.usu _ Hnn). cbn [option_map].
    unfold Z.of_uint. rewrite DecimalPos.Unsigned.of_to. cbn [Z.of_N].
    change (- Z.pos p) with (Z.neg p). now rewrite Hr.
Qed.

(** With Pipedrive configured, the contact that
    [FindOrCreateContactByPhone] returns is built from a person of the
    CRM, so its identifier is that person's, printed in decimal. *)
Lemma FindOrCreateContactByPhone_person (env : Env) (phone : string) (w w1 : World)
  (contact : Contact) :
  HasPipedriveConfig (config (service w)) = true ->
  FindOrCreateContactByPhone env phone w = (Ok contact, w1) ->
  exists person, contact = contactOfPerson person.
Proof.
  intros Hpd. unfold FindOrCreateContactByPhone.
  unfold wrap, bind, getConfig. rewrite Hpd. cbn zeta.
  repeat step; intros [= <- <-] || discriminate; eauto.
Qed.

Lemma fallback_contact_id_parses (env : Env) (phone : string) (w w1 : World)
  (contact : Contact) :
  HasPipedriveConfig (config (service w)) = true ->
  FindOrCreateContactByPhone env phone w = (Ok contact, w1) ->
  (forall person, contact = contactOfPerson person -> strconv.isInt (ID person) = true) ->
  exists personID, strconv.Atoi (contact_ID contact) = Some personID.
Proof.
  intros Hpd Hrun Hint.
  destruct (FindOrCreateContactByPhone_person _ _ _ _ _ Hpd Hrun) as [person ->].
  exists (ID person). cbn [contact_ID contactOfPerson]. apply Atoi_FormatInt. now apply Hint.
Qed.

(** * Sample runs *)

Lemma non_create_action_is_noop_witness :
  ProcessPipedriveLead crmOnlyEnv (leadPayload "update") freshWorld = (Ok tt, freshWorld).
Proof.
  apply (non_create_action_is_noop crmOnlyEnv (leadPayload "update") freshWorld).
  discriminate.
Defined.

Lemma lead_handler_validation_witness :
  bindLead crmOnlyEnv "{}" = Parsed blankLead
  /\ exists resp,
       leadWebhook crmOnlyEnv "{}" freshWorld = (Ok resp, freshWorld)
       /\ StatusCode resp = 400 /\ Success resp = false.
Proof.
  assert (Hbind : bindLead crmOnlyEnv "{}" = Parsed blankLead) by reflexivity.
  split; [exact Hbind|].
  apply (lead_handler_validation crmOnlyEnv (ProcessPipedriveLead crmOnlyEnv) "{}"
           blankLead freshWorld Hbind).
  left. reflexivity.
Defined.

Lemma lead_without_phone_is_skipped_witness :
  exists resp,
    leadWebhook crmOnlyNoPhoneEnv "create" freshWorld
      = (Ok resp,
         {| service := service freshWorld;
            sent := [pipedriveRequest realConfig "GET" "/persons/139" None];
            ticks := 0 |})
    /\ StatusCode resp = 200.
Proof.
  destruct (lead_without_phone_is_skipped crmOnlyNoPhoneEnv "create"
              (leadPayload "create") noPhone freshWorld
              {| service := service freshWorld;
                 sent := [pipedriveRequest realConfig "GET" "/persons/139" None];
                 ticks := 0 |})
    as (resp & Hrun & Hstatus & _); try reflexivity; try discriminate.
  exists resp. split; assumption.
Defined.

Lemma failed_call_is_still_recorded_witness :
  exists w',
    ProcessPipedriveLead crmOnlyEnv (leadPayload "create") freshWorld = (Ok tt, w')
    /\ callMappings (service w') =
         {[ "failed-1700000000" :=
              {| PersonName := "Jane"; PhoneNumber := "+12125550100";
                 LeadTitle := "Website enquiry"; PersonID := 139;
                 Timestamp := 1700000001 |} ]}.
Proof.
  destruct (failed_call_is_still_recorded crmOnlyEnv (leadPayload "create") jane
              freshWorld
              {| service := service freshWorld;
                 sent := [pipedriveRequest realConfig "GET" "/persons/139" None];
                 ticks := 0 |}
              {| service := service freshWorld;
                 sent := [pipedriveRequest realConfig "GET" "/persons/139" None;
                          retellRequest realConfig "+12125550100" "Jane"
                            "Website enquiry"];
                 ticks := 0 |}
              "failed to make Retell AI request: dial tcp: connection refused")
    as (w' & Hrun & Hstore & _); try reflexivity; try discriminate.
  exists w'. split; [exact Hrun|]. rewrite Hstore. reflexivity.
Defined.

Lemma analyzed_hit_uses_stored_person_witness :
  callMappings (service recordedWorld) !! Call_CallID analyzedPayload = Some janeMapping
  /\ exists r w' new,
       ProcessRetellCallAnalyzed crmOnlyEnv analyzedPayload recordedWorld = (r, w')
       /\ sent w' = new
       /\ Forall (fun req => ~ createsContact realConfig req) new
       /\ exists activity,
            In activity new
            /\ field "person_id" (body activity) = Some (JNumber 139)
            /\ field "done" (body activity) = Some (JNumber 1).
Proof.
  assert (Hhit : callMappings (service recordedWorld) !! Call_CallID analyzedPayload
                 = Some janeMapping) by reflexivity.
  split; [exact Hhit|].
  destruct (analyzed_hit_uses_stored_person crmOnlyEnv analyzedPayload recordedWorld
              janeMapping Hhit)
    as (r & w' & new & Hrun & _ & Hsent & _ & Hperson & Hdone & Hnew & Hin).
  exists r, w', new. repeat split; try assumption.
  eexists. split; [apply Hin; reflexivity|]. split; assumption.
Defined.

(** C3 as stated fails: with the CRM unreachable, an event whose call
    identifier is unknown makes the processor return an error, after the
    search request alone; no activity is created. *)
Lemma analyzed_miss_can_fail :
  callMappings (service freshWorld) !! Call_CallID analyzedPayload = None
  /\ ProcessRetellCallAnalyzed offlineEnv analyzedPayload freshWorld
     = (Err ("failed to find/create contact: failed to search contact: "
             +:+ "failed to make request: dial tcp: connection refused"),
        {| service := service freshWorld;
           sent := [unknownSearchRequest realConfig];
           ticks := 0 |}).
Proof. split; reflexivity. Qed.

Lemma analyzed_miss_falls_back_witness :
  HasPipedriveConfig (config (service freshWorld)) = true
  /\ callMappings (service freshWorld) !! Call_CallID analyzedPayload = None
  /\ exists w' before,
       ProcessRetellCallAnalyzed crmOnlyEnv analyzedPayload freshWorld = (Ok tt, w')
       /\ sent w' = [unknownSearchRequest realConfig; unknownCreateRequest realConfig]
                    ++ before
                    ++ [activityRequest crmOnlyEnv realConfig analyzedPayload 139
                          (buildCallAnalyzedNote crmOnlyEnv analyzedPayload
                             (startTimeOf analyzedPayload) (endTimeOf analyzedPayload)
                             (durationOf analyzedPayload))].
Proof.
  assert (Hpd : HasPipedriveConfig (config (service freshWorld)) = true) by reflexivity.
  assert (Hmiss : callMappings (service freshWorld) !! Call_CallID analyzedPayload = None)
    by reflexivity.
  split; [exact Hpd|]. split; [exact Hmiss|].
  destruct (analyzed_miss_falls_back crmOnlyEnv analyzedPayload freshWorld Hpd Hmiss)
    as [_ Hfound].
  destruct (Hfound (contactOfPerson jane)
              {| service := service freshWorld;
                 sent := [unknownSearchRequest realConfig;
                          unknownCreateRequest realConfig];
                 ticks := 0 |}
              139 eq_refl eq_refl eq_refl)
    as (r & w' & Hrun & _ & Hsent & _ & _ & Hok & _).
  rewrite (Hok 200 "{}" None eq_refl) in Hrun.
  exists w'. eexists. split; [exact Hrun|exact Hsent].
Defined.

Lemma fallback_lookup_uses_unknown_witness :
  HasPipedriveConfig (config (service freshWorld)) = true
  /\ callMappings (service freshWorld) !! Call_CallID analyzedPayload = None
  /\ exists r w' rest,
       ProcessRetellCallAnalyzed crmOnlyEnv analyzedPayload freshWorld = (r, w')
       /\ sent w' = unknownSearchRequest realConfig
                    :: unknownCreateRequest realConfig :: rest
       /\ field "name" (body (unknownCreateRequest realConfig))
          = Some (JString "Unknown Caller")
       /\ field "phone" (body (unknownCreateRequest realConfig))
          = Some (JArray [JObject [("value", JString "Unknown")]]).
Proof.
  assert (Hpd : HasPipedriveConfig (config (service freshWorld)) = true) by reflexivity.
  assert (Hmiss : callMappings (service freshWorld) !! Call_CallID analyzedPayload = None)
    by reflexivity.
  split; [exact Hpd|]. split; [exact Hmiss|].
  destruct (fallback_lookup_uses_unknown crmOnlyEnv analyzedPayload freshWorld Hpd Hmiss)
    as (r & w' & Hrun & _ & _ & Hcreate).
  destruct (Hcreate 200 "{}" None
              {| search_Success := true; search_Data := None; search_Items := [] |})
    as [rest Hrest]; try reflexivity; [right; reflexivity|].
  exists r, w', rest. repeat split; [exact Hrun|exact Hrest].
Defined.

(** * Further properties of the service *)

(** ** Phone normalization *)

Lemma occurs_append (c : ascii) (a b : string) :
  occurs c (a +:+ b) = occurs c a || occurs c b.
Proof.
  induction a as [|x a IH]; [reflexivity|].
  change (occurs c (String x (a +:+ b)) = occurs c (String x a) || occurs c b).
  cbn [occurs]. now rewrite IH, orb_assoc.
Qed.

Lemma occurs_ReplaceAll_same (c : ascii) (s : string) :
  occurs c (strings.ReplaceAll s c "") = false.
Proof.
  induction s as [|a s IH]; [reflexivity|]. cbn [strings.ReplaceAll].
  destruct (Ascii.eqb a c) eqn:Hac.
  - exact IH.
  - cbn [occurs]. now rewrite Hac.
Qed.

Lemma occurs_ReplaceAll_other (c d : ascii) (s : string) :
  occurs c s = false -> occurs c (strings.ReplaceAll s d "") = false.
Proof.
  induction s as [|a s IH]; [reflexivity|]. cbn [occurs strings.ReplaceAll].
  intros [Hac Hs]%orb_false_iff. destruct (Ascii.eqb a d).
  - now apply IH.
  - cbn [occurs]. rewrite Hac. now apply IH.
Qed.

Lemma ReplaceAll_absent (c : ascii) (s : string) :
  occurs c s = false -> strings.ReplaceAll s c "" = s.
Proof.
  induction s as [|a s IH]; [reflexivity|]. cbn [occurs strings.ReplaceAll].
  intros [Hac Hs]%orb_false_iff. rewrite Hac. now rewrite IH.
Qed.

Lemma stripSeparators_clean (v : string) :
  occurs " " (stripSeparators v) = false
  /\ occurs "-" (stripSeparators v) = false
  /\ occurs "(" (stripSeparators v) = false
  /\ occurs ")" (stripSeparators v) = false.
Proof.
  unfold stripSeparators. repeat split;
    repeat first [ apply occurs_ReplaceAll_same | apply occurs_ReplaceAll_other ].
Qed.

Lemma stripSeparators_absent (s : string) :
  occurs " " s = false -> occurs "-" s = false ->
  occurs "(" s = false -> occurs ")" s = false ->
  stripSeparators s = s.
Proof.
  intros H1 H2 H3 H4. unfold stripSeparators.
  now rewrite (ReplaceAll_absent " " s H1), (ReplaceAll_absent "-" s H2),
    (ReplaceAll_absent "(" s H3), (ReplaceAll_absent ")" s H4).
Qed.

Lemma extractPhone_shape (person : PipedrivePerson) :
  Phone person <> [] ->
  strings.HasPrefix (extractPhoneFromPerson person) "+" = true
  /\ occurs " " (extractPhoneFromPerson person) = false
  /\ occurs "-" (extractPhoneFromPerson person) = false
  /\ occurs "(" (extractPhoneFromPerson person) = false
  /\ occurs ")" (extractPhoneFromPerson person) = false.
Proof.
  intros Hne. destruct (Phone person) as [|ph rest] eqn:HP; [contradiction|].
  rewrite (extractPhoneFromPerson_spec _ _ _ HP).
  destruct (stripSeparators_clean (Value ph)) as (H1 & H2 & H3 & H4).
  destruct (strings.HasPrefix (stripSeparators (Value ph)) "+") eqn:Hplus.
  - repeat split; assumption.
  - split.
    + change ("+1" +:+ stripSeparators (Value ph))
        with ("+" +:+ ("1" +:+ stripSeparators (Value ph))).
      apply HasPrefix_append.
    + rewrite !occurs_append, H1, H2, H3, H4. repeat split; reflexivity.
Qed.

(** X1: whatever the first phone of a person is, the number extracted for
    dialing starts with [+] and holds no space, dash or parenthesis. *)
Theorem normalized_phone_shape (person : PipedrivePerson) :
  Phone person <> [] ->
  strings.HasPrefix (extractPhoneFromPerson person) "+" = true
  /\ occurs " " (extractPhoneFromPerson person) = false
  /\ occurs "-" (extractPhoneFromPerson person) = false
  /\ occurs "(" (extractPhoneFromPerson person) = false
  /\ occurs ")" (extractPhoneFromPerson person) = false.
Proof. exact (extractPhone_shape person). Qed.

Lemma normalized_phone_shape_witness :
  strings.HasPrefix (extractPhoneFromPerson (onePhone "(555) 123-4567")) "+" = true
  /\ occurs " " (extractPhoneFromPerson (onePhone "(555) 123-4567")) = false.
Proof.
  destruct (normalized_phone_shape (onePhone "(555) 123-4567")) as (H1 & H2 & _);
    [discriminate|]. split; assumption.
Defined.

(** X2: normalization is idempotent: a person whose first phone is an
    already extracted number gets that number back unchanged. *)
Theorem normalization_idempotent (person again : PipedrivePerson) (ph : PipedrivePhone)
  (rest : list PipedrivePhone) :
  Phone person <> [] ->
  Phone again = ph :: rest ->
  Value ph = extractPhoneFromPerson person ->
  extractPhoneFromPerson again = extractPhoneFromPerson person.
Proof.
  intros Hne HP Hv.
  destruct (extractPhone_shape person Hne) as (Hplus & H1 & H2 & H3 & H4).
  rewrite (extractPhoneFromPerson_spec _ _ _ HP), Hv.
  rewrite (stripSeparators_absent _ H1 H2 H3 H4). now rewrite Hplus.
Qed.

Lemma normalization_idempotent_witness :
  extractPhoneFromPerson (onePhone "+15551234567")
  = extractPhoneFromPerson (onePhone "(555) 123-4567").
Proof.
  apply (normalization_idempotent (onePhone "(555) 123-4567") (onePhone "+15551234567")
           {| Label := "work"; Value := "+15551234567"; Primary := true |} []);
    [discriminate|reflexivity|reflexivity].
Defined.

(** ** The correlation store, again *)

(** X3: recording a call leaves every other call identifier as it was:
    resolving one gives the same mapping and the same [found] as before,
    and nothing is sent. *)
Theorem store_keeps_other_ids (env : Env)
  (callID other personName phoneNumber leadTitle : string) (personID : Z) (w : World) :
  other <> callID ->
  exists w1,
    storeCallMapping env callID personName phoneNumber leadTitle personID w = (Ok tt, w1)
    /\ fst (getCallMapping other w1) = fst (getCallMapping other w)
    /\ sent w1 = sent w
    /\ config (service w1) = config (service w).
Proof.
  intros Hne. eexists. split; [reflexivity|].
  unfold getCallMapping, bind, getMappings. cbn [service callMappings sent config].
  rewrite lookup_insert_ne by congruence.
  repeat split. now destruct (callMappings (service w) !! other).
Qed.

Lemma store_keeps_other_ids_witness :
  fst (getCallMapping "call_123"
         (snd (storeCallMapping crmOnlyEnv "call_456" "Joe" "+13105550199" "Other lead" 7
                 recordedWorld)))
  = Ok (janeMapping, true).
Proof.
  destruct (store_keeps_other_ids crmOnlyEnv "call_456" "call_123" "Joe" "+13105550199"
              "Other lead" 7 recordedWorld) as (w1 & Hrun & Hget & _); [discriminate|].
  rewrite Hrun. cbn [snd]. rewrite Hget. reflexivity.
Defined.

(** X4: recording twice under one call identifier overwrites: the second
    record is the one resolved, and the set of recorded identifiers is the
    one after the first recording. *)
Theorem store_overwrites (env : Env) (callID name1 phone1 title1 : string) (person1 : Z)
  (name2 phone2 title2 : string) (person2 : Z) (w : World) :
  exists w1 w2,
    storeCallMapping env callID name1 phone1 title1 person1 w = (Ok tt, w1)
    /\ storeCallMapping env callID name2 phone2 title2 person2 w1 = (Ok tt, w2)
    /\ getCallMapping callID w2
       = (Ok ({| PersonName := name2; PhoneNumber := phone2; LeadTitle := title2;
                 PersonID := person2; Timestamp := clock env (S (ticks w)) |}, true), w2)
    /\ dom (callMappings (service w2)) = dom (callMappings (service w1)).
Proof.
  eexists. eexists. split; [reflexivity|]. split; [reflexivity|].
  unfold getCallMapping, bind, getMappings. cbn [service callMappings ticks].
  rewrite lookup_insert_eq. split; [reflexivity|].
  now rewrite insert_insert_eq, !dom_insert_L.
Qed.

(** ** Configuration *)

Lemma getEnv_nonEmpty (environ : gmap string string) (key defaultValue : string) :
  nonEmpty defaultValue = true -> nonEmpty (getEnv environ key defaultValue) = true.
Proof.
  intros Hd. unfold getEnv. cbn zeta.
  now destruct (nonEmpty (Getenv environ key)) eqn:Hv.
Qed.

Lemma getEnv_empty_default (environ : gmap string string) (key : string) :
  getEnv environ key "" = Getenv environ key.
Proof.
  unfold getEnv. cbn zeta. now destruct (Getenv environ key).
Qed.

Lemma LoadConfig_modes_aux (environ : gmap string string) :
  HasPipedriveConfig (LoadConfig environ) = nonEmpty (Getenv environ "PIPEDRIVE_API_KEY")
  /\ HasRetellConfig (LoadConfig environ)
     = nonEmpty (Getenv environ "RETELL_API_KEY")
       && nonEmpty (Getenv environ "RETELL_ASSISTANT_ID").
Proof.
  unfold HasPipedriveConfig, HasRetellConfig, LoadConfig.
  cbn [PipedriveAPIKey RetellAPIKey RetellAssistantID].
  now rewrite !getEnv_empty_default.
Qed.

(** X5: the loaded configuration enables the CRM exactly when
    [PIPEDRIVE_API_KEY] is set to a non-empty string, and the call platform
    exactly when [RETELL_API_KEY] and [RETELL_ASSISTANT_ID] both are; the
    two base URLs and the caller number are never empty. *)
Theorem LoadConfig_modes (environ : gmap string string) :
  HasPipedriveConfig (LoadConfig environ) = nonEmpty (Getenv environ "PIPEDRIVE_API_KEY")
  /\ HasRetellConfig (LoadConfig environ)
     = nonEmpty (Getenv environ "RETELL_API_KEY")
       && nonEmpty (Getenv environ "RETELL_ASSISTANT_ID")
  /\ nonEmpty (PipedriveBaseURL (LoadConfig environ)) = true
  /\ nonEmpty (RetellBaseURL (LoadConfig environ)) = true
  /\ nonEmpty (RetellFromNumber (LoadConfig environ)) = true.
Proof.
  unfold HasPipedriveConfig, HasRetellConfig, LoadConfig.
  cbn [PipedriveAPIKey RetellAPIKey RetellAssistantID PipedriveBaseURL RetellBaseURL
       RetellFromNumber].
  rewrite !getEnv_empty_default.
  repeat split; now apply getEnv_nonEmpty.
Qed.

(** ** The duration of an analyzed call *)

Lemma durationOf_parts (payload : RetellCallAnalyzedPayload) (h m s r : Z) :
  0 <= h -> 0 <= m < 60 -> 0 <= s < 60 -> 0 <= r < 1000 ->
  Call_DurationMs payload = 1000 * (3600 * h + 60 * m + s) + r ->
  Z.quot (Z.quot (Call_DurationMs payload) 1000) 3600 = h
  /\ Z.quot (Z.rem (Z.quot (Call_DurationMs payload) 1000) 3600) 60 = m
  /\ Z.rem (Z.quot (Call_DurationMs payload) 1000) 60 = s.
Proof.
  intros Hh Hm Hs Hr ->.
  assert (Hsec : Z.quot (1000 * (3600 * h + 60 * m + s) + r) 1000
                 = 3600 * h + 60 * m + s).
  { rewrite Z.quot_div_nonneg by lia. symmetry. apply (Z.div_unique_pos _ _ _ r); lia. }
  rewrite Hsec.
  assert (Hq : Z.quot (3600 * h + 60 * m + s) 3600 = h).
  { rewrite Z.quot_div_nonneg by lia. symmetry.
    apply (Z.div_unique_pos _ _ _ (60 * m + s)); lia. }
  assert (Hrem : Z.rem (3600 * h + 60 * m + s) 3600 = 60 * m + s).
  { rewrite Z.rem_mod_nonneg by lia. symmetry.
    apply (Z.mod_unique_pos _ _ h); lia. }
  rewrite Hq, Hrem. repeat split.
  - rewrite Z.quot_div_nonneg by lia. symmetry. apply (Z.div_unique_pos _ _ _ s); lia.
  - rewrite Z.rem_mod_nonneg by lia. symmetry.
    apply (Z.mod_unique_pos _ _ (60 * h + m)); lia.
Qed.

(** X6: for a call of [h] hours, [m] minutes, [s] seconds and [r]
    milliseconds the duration sent to the CRM is [HH:MM:SS] with these
    hours, minutes and seconds, each padded to two digits; the
    milliseconds are dropped. *)
Theorem durationOf_clock (payload : RetellCallAnalyzedPayload) (h m s r : Z) :
  0 <= h -> 0 <= m < 60 -> 0 <= s < 60 -> 0 <= r < 1000 ->
  Call_DurationMs payload = 1000 * (3600 * h + 60 * m + s) + r ->
  durationOf payload
  = strconv.pad2 h +:+ ":" +:+ strconv.pad2 m +:+ ":" +:+ strconv.pad2 s.
Proof.
  intros Hh Hm Hs Hr Hd.
  destruct (durationOf_parts payload h m s r Hh Hm Hs Hr Hd) as (H1 & H2 & H3).
  unfold durationOf. cbn zeta. now rewrite H1, H2, H3.
Qed.

Lemma durationOf_clock_witness : durationOf analyzedPayload = "00:01:35".
Proof.
  rewrite (durationOf_clock analyzedPayload 0 1 35 0); try lia; reflexivity.
Defined.

(** ** Lead created, again *)

(** Whatever a person lookup gives, it has sent its one request or none. *)
Lemma GetPersonByID_sent (env : Env) (personID : Z) (w w1 : World)
  (r : Outcome (option PipedrivePerson)) :
  GetPersonByID env personID w = (r, w1) ->
  r <> Panic
  /\ (w1 = w
      \/ w1 = afterSending w [pipedriveRequest (config (service w)) "GET"
                                ("/persons/" +:+ strconv.FormatInt personID) None]).
Proof.
  unfold GetPersonByID. cbn zeta. unfold bind at 1.
  rewrite makePipedriveRequest_run. cbn zeta.
  destruct (newRequestError env _); [intros [= <- <-]; split; [discriminate|now left]|].
  destruct (transport env _ _) as [e|status bytes re];
    [intros [= <- <-]; split; [discriminate|now right]|].
  destruct (negb (status =? 200)); [intros [= <- <-]; split; [discriminate|now right]|].
  destruct (decodePerson env bytes) as [result|e];
    [|intros [= <- <-]; split; [discriminate|now right]].
  destruct (negb (person_Success result));
    intros [= <- <-]; (split; [discriminate|now right]).
Qed.

(** X7: when the lookup of the lead's person fails, the webhook is
    answered 500 with the error in the message; the service is unchanged
    and at most the lookup itself was sent, so no call was requested and
    nothing was recorded. *)
Theorem lead_person_lookup_failure (env : Env) (raw : string)
  (payload : PipedriveLeadWebhookPayload) (w w1 : World) (e : string) :
  bindLead env raw = Parsed payload ->
  Data_ID payload <> "" ->
  Data_PersonID payload <> 0 ->
  Meta_Action payload = "create" ->
  HasPipedriveConfig (config (service w)) = true ->
  HasRetellConfig (config (service w)) = true ->
  GetPersonByID env (Data_PersonID payload) w = (Err e, w1) ->
  leadWebhook env raw w
  = (Ok {| StatusCode := 500; Success := false;
           Message := "Failed to process lead: "
                      +:+ "failed to get person details: " +:+ e;
           Data := [] |}, w1)
  /\ (w1 = w
      \/ w1 = afterSending w [pipedriveRequest (config (service w)) "GET"
                                ("/persons/" +:+ strconv.FormatInt (Data_PersonID payload))
                                None]).
Proof.
  intros Hbind Hid Hpid Hact Hpd Hrt Hget.
  split; [|exact (proj2 (GetPersonByID_sent _ _ _ _ _ Hget))].
  assert (Hproc : ProcessPipedriveLead env payload w
                  = (Err ("failed to get person details: " +:+ e), w1)).
  { unfold ProcessPipedriveLead. unfold bind at 1. unfold getConfig.
    rewrite Hact, String.eqb_refl, Hpd, Hrt. cbn [negb andb].
    now rewrite (bind_Err _ _ _ _ _ (wrap_Err _ _ _ _ _ Hget)). }
  unfold leadWebhook, PipedriveLeadWebhookHandler. rewrite Hbind.
  apply nonEmpty_true in Hid. apply Z.eqb_neq in Hpid.
  rewrite Hid, Hpid. cbn [negb orb].
  now rewrite (bind_Ok _ _ _ _ _ (attempt_Err _ _ _ _ Hproc)).
Qed.

Lemma lead_person_lookup_failure_witness :
  exists resp w1,
    leadWebhook offlineEnv "create" freshWorld = (Ok resp, w1)
    /\ StatusCode resp = 500
    /\ callMappings (service w1) = ∅.
Proof.
  destruct (lead_person_lookup_failure offlineEnv "create" (leadPayload "create")
              freshWorld
              (afterSending freshWorld
                 [pipedriveRequest realConfig "GET" "/persons/139" None])
              "failed to make request: dial tcp: connection refused")
    as [Hrun _]; try reflexivity; try discriminate.
  eexists. eexists. split; [exact Hrun|]. split; reflexivity.
Defined.

(** X8: when the call platform creates the call, the mapping is recorded
    under the identifier it returned, with the normalized number, and a
    pending activity ([done = 0]) for the lead's person is posted; the
    processor returns nil whether or not that activity request succeeds. *)
Theorem lead_call_is_recorded (env : Env) (payload : PipedriveLeadWebhookPayload)
  (person : PipedrivePerson) (w w1 w2 : World) (callID : string) :
  Meta_Action payload = "create" ->
  HasPipedriveConfig (config (service w)) = true ->
  HasRetellConfig (config (service w)) = true ->
  GetPersonByID env (Data_PersonID payload) w = (Ok (Some person), w1) ->
  extractPhoneFromPerson person <> "" ->
  CreateRetellCall env (extractPhoneFromPerson person) (Name person)
    (Data_Title payload) w1 = (Ok callID, w2) ->
  let activity :=
    pipedriveRequest (config (service w)) "POST" "/activities"
      (Some (leadActivityData env payload callID (extractPhoneFromPerson person)
               (clock env (S (ticks w2))) (clock env (S (S (ticks w2)))))) in
  exists w',
    ProcessPipedriveLead env payload w = (Ok tt, w')
    /\ callMappings (service w') =
         <[callID := {| PersonName := Name person;
                        PhoneNumber := extractPhoneFromPerson person;
                        LeadTitle := Data_Title payload;
                        PersonID := Data_PersonID payload;
                        Timestamp := clock env (ticks w2) |}]>
           (callMappings (service w))
    /\ (newRequestError env activity = None -> sent w' = sent w2 ++ [activity])
    /\ field "done" (body activity) = Some (JNumber 0)
    /\ field "person_id" (body activity) = Some (JNumber (Data_PersonID payload)).
Proof.
  intros Hact Hpd Hrt Hget Hphone Hcall activity.
  destruct (frame_GetPersonByID env _ (fun _ => True) _ I _ _ _ eq_refl Hget)
    as [Hs1 _].
  destruct (frame_CreateRetellCall env _ (fun _ => True) _ _ _ I _ _ _ eq_refl Hcall)
    as [Hs2 _].
  assert (Hstore : callMappings (service w2) = callMappings (service w))
    by now rewrite Hs2, Hs1.
  assert (Hcfg : config (service w2) = config (service w)) by now rewrite Hs2, Hs1.
  subst activity.
  unfold ProcessPipedriveLead. unfold bind at 1. unfold getConfig.
  rewrite Hact, String.eqb_refl, Hpd, Hrt. cbn [negb andb].
  rewrite (bind_Ok _ _ _ _ _ (wrap_Ok _ _ _ _ _ Hget)).
  rewrite (nonEmpty_true _ Hphone). cbn [negb].
  rewrite (bind_Ok _ _ _ _ _ (attempt_Ok _ _ _ _ Hcall)).
  unfold storeCallMapping, timeNow.
  unfold bind, tick, ret, getMappings, setMappings, attempt.
  cbn [service sent ticks config callMappings].
  rewrite makePipedriveRequest_run. cbn zeta.
  cbn [service sent ticks config callMappings]. rewrite Hcfg.
  destruct (newRequestError env _) eqn:Hacc;
    [|destruct (transport env _ _)];
    (eexists; split; [reflexivity|];
     cbn [service callMappings sent]; rewrite Hstore;
     split; [reflexivity|]; split; [|split; reflexivity];
     first [ discriminate | reflexivity ]).
Qed.

Lemma lead_call_is_recorded_witness :
  exists w',
    ProcessPipedriveLead onlineEnv (leadPayload "create") freshWorld = (Ok tt, w')
    /\ callMappings (service w') !! "call_55"
       = Some {| PersonName := "Jane"; PhoneNumber := "+12125550100";
                 LeadTitle := "Website enquiry"; PersonID := 139;
                 Timestamp := 1700000000 |}
    /\ length (sent w') = 3%nat.
Proof.
  destruct (lead_call_is_recorded onlineEnv (leadPayload "create") jane freshWorld
              (afterSending freshWorld
                 [pipedriveRequest realConfig "GET" "/persons/139" None])
              (afterSending freshWorld
                 [pipedriveRequest realConfig "GET" "/persons/139" None;
                  retellRequest realConfig "+12125550100" "Jane" "Website enquiry"])
              "call_55")
    as (w' & Hrun & Hstore & Hsent & _); try reflexivity; try discriminate.
  exists w'. split; [exact Hrun|]. split.
  - rewrite Hstore. reflexivity.
  - rewrite (Hsent eq_refl). reflexivity.
Defined.

(** X9: when the CRM answers the person lookup with [success] and no
    person ([data] null), the processor dereferences the nil person and
    panics, after the lookup and before any call is requested. *)
Theorem lead_nil_person_panics (env : Env) (payload : PipedriveLeadWebhookPayload)
  (w : World) (bytes : string) (readErr : option string)
  (answer : PipedrivePersonResponse) :
  Meta_Action payload = "create" ->
  HasPipedriveConfig (config (service w)) = true ->
  HasRetellConfig (config (service w)) = true ->
  let lookup :=
    pipedriveRequest (config (service w)) "GET"
      ("/persons/" +:+ strconv.FormatInt (Data_PersonID payload)) None in
  newRequestError env lookup = None ->
  transport env (sent w) lookup = Response 200 bytes readErr ->
  decodePerson env bytes = Parsed answer ->
  person_Success answer = true ->
  person_Data answer = None ->
  ProcessPipedriveLead env payload w = (Panic, afterSending w [lookup]).
Proof.
  intros Hact Hpd Hrt lookup Hacc Hresp Hdec Hsucc Hnil. subst lookup.
  unfold ProcessPipedriveLead. unfold bind at 1. unfold getConfig.
  rewrite Hact, String.eqb_refl, Hpd, Hrt. cbn [negb andb].
  unfold GetPersonByID, wrap, bind. cbn zeta.
  rewrite makePipedriveRequest_run. cbn zeta. rewrite Hacc, Hresp.
  cbn beta iota. change (200 =? 200) with true. cbn [negb].
  rewrite Hdec, Hsucc. cbn [negb]. unfold ret. cbn beta iota. rewrite Hnil. reflexivity.
Qed.

Lemma lead_nil_person_panics_witness :
  fst (ProcessPipedriveLead
         (withPersonAnswer onlineEnv {| person_Success := true; person_Data := None |})
         (leadPayload "create") freshWorld) = Panic.
Proof.
  rewrite (lead_nil_person_panics
             (withPersonAnswer onlineEnv {| person_Success := true; person_Data := None |})
             (leadPayload "create") freshWorld "{}" None
             {| person_Success := true; person_Data := None |});
    reflexivity.
Defined.

Lemma ProcessPipedriveLead_store (env : Env) (payload : PipedriveLeadWebhookPayload)
  (w w' : World) (r : Outcome unit) :
  ProcessPipedriveLead env payload w = (r, w') ->
  config (service w') = config (service w)
  /\ (callMappings (service w') = callMappings (service w)
      \/ exists callID mapping,
           callMappings (service w') = <[callID := mapping]> (callMappings (service w))).
Proof.
  unfold ProcessPipedriveLead. unfold bind at 1. unfold getConfig.
  destruct (negb (Meta_Action payload =? "create")%string);
    [intros [= <- <-]; auto|].
  destruct (HasPipedriveConfig (config (service w)) && HasRetellConfig (config (service w)));
    [|intros [= <- <-]; auto].
  unfold bind at 1.
  destruct (wrap _ (GetPersonByID env (Data_PersonID payload)) w) as [[fetched|e|] w1]
    eqn:Hget;
    destruct (frame_wrap _ (fun _ => True) _ _
                (frame_GetPersonByID env _ (fun _ => True) _ I) _ _ _ eq_refl Hget)
      as [Hs1 _];
    try (intros [= <- <-]; rewrite Hs1; auto).
  destruct fetched as [person|]; [|intros [= <- <-]; rewrite Hs1; auto].
  destruct (negb (nonEmpty (extractPhoneFromPerson person)));
    [intros [= <- <-]; rewrite Hs1; auto|].
  unfold bind at 1.
  assert (Hcfg1 : config (service w1) = config (service w)) by now rewrite Hs1.
  destruct (attempt (CreateRetellCall env _ _ _) w1) as [[created|e|] w2] eqn:Hcall;
    destruct (frame_attempt _ (fun _ => True) _
                (frame_CreateRetellCall env _ (fun _ => True) _ _ _ I) _ _ _ Hcfg1 Hcall)
      as [Hs2 _];
    try (intros [= <- <-]; rewrite Hs2, Hs1; auto).
  assert (Hs : service w2 = service w) by now rewrite Hs2.
  assert (Hend : forall callID w3 r w',
             service w3 = service w ->
             bind (storeCallMapping env callID (Name person)
                     (extractPhoneFromPerson person) (Data_Title payload)
                     (Data_PersonID payload))
               (fun _ =>
                  let* dueDate := timeNow env in
                  let* dueTime := timeNow env in
                  let activityData :=
                    leadActivityData env payload callID (extractPhoneFromPerson person)
                      dueDate dueTime in
                  let* _ := attempt (makePipedriveRequest env "POST" "/activities"
                                       (Some activityData)) in
                  ret tt) w3 = (r, w') ->
             config (service w') = config (service w)
             /\ (callMappings (service w') = callMappings (service w)
                 \/ exists callID mapping,
                      callMappings (service w')
                      = <[callID := mapping]> (callMappings (service w)))).
  { intros callID w3 r0 w0 Hs3.
    unfold storeCallMapping, timeNow.
    unfold bind, tick, ret, getMappings, setMappings, attempt.
    cbn [service sent ticks config callMappings].
    rewrite makePipedriveRequest_run. cbn zeta.
    cbn [service sent ticks config callMappings].
    destruct (newRequestError env _); [|destruct (transport env _ _)];
      intros [= <- <-]; cbn [service config callMappings]; rewrite Hs3;
      (split; [reflexivity|right; eauto]). }
  destruct created as [callID|e]; unfold bind at 1.
  - apply Hend. exact Hs.
  - unfold timeNow, bind, tick, ret. cbn beta iota.
    apply Hend. cbn [service]. exact Hs.
Qed.

(** X10: whatever a run of the lead processor does and however it ends,
    it leaves the configuration alone and changes the store by at most one
    recording. *)
Theorem lead_records_at_most_once (env : Env) (payload : PipedriveLeadWebhookPayload)
  (w : World) :
  let w' := snd (ProcessPipedriveLead env payload w) in
  config (service w') = config (service w)
  /\ (callMappings (service w') = callMappings (service w)
      \/ exists callID mapping,
           callMappings (service w') = <[callID := mapping]> (callMappings (service w))).
Proof.
  cbn zeta. apply (ProcessPipedriveLead_store env payload w _
                     (fst (ProcessPipedriveLead env payload w))).
  apply surjective_pairing.
Qed.

(** ** Creating the call *)

(** X11: [CreateRetellCall] returns a call identifier only after exactly
    one request, the call creation with the given number, was sent and
    answered with status 200 or 201 and a body that could be read. *)
Theorem CreateRetellCall_Ok (env : Env) (phoneNumber personName leadTitle callID : string)
  (w w' : World) :
  CreateRetellCall env phoneNumber personName leadTitle w = (Ok callID, w') ->
  let req := retellRequest (config (service w)) phoneNumber personName leadTitle in
  w' = afterSending w [req]
  /\ field "to_number" (body req) = Some (JString phoneNumber)
  /\ exists status bytes,
       transport env (sent w) req = Response status bytes None
       /\ (status = 200 \/ status = 201).
Proof.
  unfold CreateRetellCall. unfold bind at 1. unfold getConfig.
  destruct (_ || _); [discriminate|]. cbn zeta.
  destruct (newRequestError env _); [discriminate|].
  unfold Do, bind, getSent, sentMore, ret. cbn [service sent ticks].
  destruct (transport env _ _) as [e|status bytes [e|]] eqn:Hresp;
    [discriminate|discriminate|].
  destruct ((status =? 200) || (status =? 201)) eqn:Hst; [|discriminate].
  intros Hrun.
  assert (Hw : w' = afterSending w
                 [retellRequest (config (service w)) phoneNumber personName leadTitle]).
  { destruct (decodeRetell env bytes) as [resp|err].
    - now injection Hrun as _ <-.
    - destruct (decodeObject env bytes) as [responseMap|]; [|discriminate].
      destruct (lookupField "call_id" responseMap) as [[| | s| | | ]|];
        try (now injection Hrun as _ <-);
        destruct (lookupField "id" responseMap) as [[| | s'| | | ]|];
        try discriminate; now injection Hrun as _ <-. }
  split; [exact Hw|]. split; [reflexivity|].
  exists status, bytes. split; [reflexivity|].
  apply orb_true_iff in Hst. destruct Hst as [H|H]; apply Z.eqb_eq in H; auto.
Qed.

Lemma CreateRetellCall_Ok_witness :
  CreateRetellCall onlineEnv "+12125550100" "Jane" "Website enquiry" freshWorld
  = (Ok "call_55",
     afterSending freshWorld
       [retellRequest realConfig "+12125550100" "Jane" "Website enquiry"])
  /\ exists status bytes,
       transport onlineEnv []
         (retellRequest realConfig "+12125550100" "Jane" "Website enquiry")
       = Response status bytes None
       /\ (status = 200 \/ status = 201).
Proof.
  assert (Hrun : CreateRetellCall onlineEnv "+12125550100" "Jane" "Website enquiry"
                   freshWorld
                 = (Ok "call_55",
                    afterSending freshWorld
                      [retellRequest realConfig "+12125550100" "Jane"
                         "Website enquiry"])) by reflexivity.
  split; [exact Hrun|].
  exact (proj2 (proj2 (CreateRetellCall_Ok _ _ _ _ _ _ _ Hrun))).
Defined.

(** ** Simulation mode *)

(** X12: a server started without [PIPEDRIVE_API_KEY] is in simulation
    mode for good: the lead, call-event and call-analyzed processors
    return nil on every payload, in the state they started in, so nothing
    is sent and nothing is recorded. *)
Theorem no_key_no_request (env : Env) (lib : Lib) (environ : gmap string string)
  (lead : PipedriveLeadWebhookPayload) (event : RetellWebhookPayload)
  (analyzed : RetellCallAnalyzedPayload) :
  Getenv environ "PIPEDRIVE_API_KEY" = "" ->
  ProcessPipedriveLead env lead (initWorld environ) = (Ok tt, initWorld environ)
  /\ ProcessRetellCall env lib event (initWorld environ) = (Ok tt, initWorld environ)
  /\ ProcessRetellCallAnalyzed env analyzed (initWorld environ)
     = (Ok tt, initWorld environ).
Proof.
  intros Hkey.
  assert (Hpd : HasPipedriveConfig (config (service (initWorld environ))) = false).
  { cbn [initWorld service NewPipedriveService config].
    rewrite (proj1 (LoadConfig_modes_aux environ)). now rewrite Hkey. }
  repeat split.
  - unfold ProcessPipedriveLead, bind, getConfig. rewrite Hpd.
    now destruct (negb _).
  - unfold ProcessRetellCall, bind, getConfig. now rewrite Hpd.
  - unfold ProcessRetellCallAnalyzed, bind, getConfig. now rewrite Hpd.
Qed.

Lemma no_key_no_request_witness :
  ProcessPipedriveLead onlineEnv (leadPayload "create") (initWorld ∅)
  = (Ok tt, initWorld ∅).
Proof.
  apply (no_key_no_request onlineEnv sampleLib ∅ (leadPayload "create")
           (retellPayload "call_started") analyzedPayload).
  reflexivity.
Defined.

(** ** Call analyzed, again *)

Lemma toCRM_request (cfg : Config) (method endpoint : string) (body : option JSON) :
  toCRM cfg (pipedriveRequest cfg method endpoint body).
Proof. unfold toCRM. eauto. Qed.

Lemma frame_getCallMapping {B} (cfg : Config) (P : Request -> Prop) (callID : string)
  (k : CallMapping * bool -> Go B) :
  (forall found, frame cfg P (k found)) -> frame cfg P (bind (getCallMapping callID) k).
Proof.
  intros Hk. apply frame_bind; [|exact Hk].
  apply frame_nothing. intros w. unfold getCallMapping, bind, getMappings.
  destruct (callMappings (service w) !! callID); eauto.
Qed.

Ltac crm_frame :=
  repeat first
    [ apply frame_makePipedriveRequest; apply toCRM_request
    | apply frame_UpdatePersonWithCallData; apply toCRM_request
    | apply frame_FindOrCreateContactByPhone; apply toCRM_request
    | frame_step ].

Lemma frame_ProcessRetellCallAnalyzed (env : Env) (cfg : Config)
  (payload : RetellCallAnalyzedPayload) :
  frame cfg (toCRM cfg) (ProcessRetellCallAnalyzed env payload).
Proof.
  unfold ProcessRetellCallAnalyzed. apply frame_getConfig.
  destruct (HasPipedriveConfig cfg); [|apply frame_ret]. cbn zeta.
  apply frame_getCallMapping. intros [callMapping found].
  destruct (negb found); crm_frame.
Qed.

(** X13: the call-analyzed processor only reads the correlation store:
    however a run ends, the service (configuration and store) is the one
    it started with, and every request it sent went to the CRM, none to
    the call platform. *)
Theorem analyzed_only_reads_store (env : Env) (payload : RetellCallAnalyzedPayload)
  (w : World) :
  let w' := snd (ProcessRetellCallAnalyzed env payload w) in
  service w' = service w
  /\ exists new, sent w' = sent w ++ new /\ Forall (toCRM (config (service w))) new.
Proof.
  cbn zeta.
  apply (frame_ProcessRetellCallAnalyzed env (config (service w)) payload w
           (fst (ProcessRetellCallAnalyzed env payload w)) _ eq_refl).
  apply surjective_pairing.
Qed.

(** X14: on a store hit, when the CRM answers the activity request with
    [success] and no activity ([data] null), the processor panics on the
    nil activity: the activity request was sent, the transcript note never
    is. *)
Theorem analyzed_nil_activity_panics (env : Env) (payload : RetellCallAnalyzedPayload)
  (w : World) (mapping : CallMapping) (status : Z) (bytes : string)
  (readErr : option string) (answer : PipedriveActivityResponse) :
  HasPipedriveConfig (config (service w)) = true ->
  callMappings (service w) !! Call_CallID payload = Some mapping ->
  let cfg := config (service w) in
  let update := callDataRequest env cfg payload (PersonID mapping) in
  let activity :=
    activityRequest env cfg payload (PersonID mapping)
      (buildCallAnalyzedNoteWithPerson env payload (startTimeOf payload)
         (endTimeOf payload) (durationOf payload) (PersonName mapping)
         (LeadTitle mapping) (PhoneNumber mapping)) in
  let before :=
    match newRequestError env update with Some _ => [] | None => [update] end in
  newRequestError env activity = None ->
  transport env (sent w ++ before) activity = Response status bytes readErr ->
  decodeActivity env bytes = Parsed answer ->
  activity_Success answer = true ->
  activity_Data answer = None ->
  ProcessRetellCallAnalyzed env payload w
  = (Panic, afterSending w (before ++ [activity])).
Proof.
  intros Hpd Hhit cfg update activity before Hacc Hresp Hdec Hsucc Hnil.
  subst before activity update cfg. unfold callDataRequest, activityRequest in *.
  unfold ProcessRetellCallAnalyzed. unfold bind at 1. unfold getConfig. rewrite Hpd.
  rewrite (bind_Ok _ _ _ _ _ (getCallMapping_hit _ _ _ Hhit)). cbn [negb].
  unfold UpdatePersonWithCallData, attempt, wrap, bind. cbn zeta.
  rewrite makePipedriveRequest_run. cbn zeta. unfold afterSending.
  destruct (newRequestError env (pipedriveRequest _ "PUT" _ _)) eqn:Hupd.
  - reduce. rewrite makePipedriveRequest_run. reduce. rewrite Hacc.
    rewrite app_nil_r in Hresp. rewrite Hresp. reduce.
    rewrite Hdec, Hsucc. reduce. now rewrite Hnil.
  - destruct (transport env (sent w) _) as [e|st bs re]; reduce;
      [|destruct (st =? 200); reduce];
      (rewrite makePipedriveRequest_run; reduce; rewrite Hacc, Hresp; reduce;
       rewrite Hdec, Hsucc; reduce; rewrite Hnil; now rewrite <- app_assoc).
Qed.

Lemma analyzed_nil_activity_panics_witness :
  exists w',
    ProcessRetellCallAnalyzed
      (withActivityAnswer onlineEnv
         {| activity_Success := true; activity_Data := None |})
      analyzedPayload recordedWorld = (Panic, w')
    /\ length (sent w') = 2%nat.
Proof.
  eexists. split.
  - apply (analyzed_nil_activity_panics
             (withActivityAnswer onlineEnv
                {| activity_Success := true; activity_Data := None |})
             analyzedPayload recordedWorld janeMapping 200 "{}" None
             {| activity_Success := true; activity_Data := None |});
      reflexivity.
  - reflexivity.
Defined.



(** ** Call events *)

Lemma afterSending_nil (w : World) : afterSending w [] = w.
Proof. destruct w. unfold afterSending. cbn. now rewrite app_nil_r. Qed.

Lemma afterSending_app (w : World) (l1 l2 : list Request) :
  afterSending (afterSending w l1) l2 = afterSending w (l1 ++ l2).
Proof. unfold afterSending. cbn. now rewrite app_assoc. Qed.

(** The update of the person's fields, attempted: its error is dropped,
    and its request is sent unless [http.NewRequest] refuses it. *)
Lemma attempt_update_run (env : Env) (personID : Z) (transcript duration date : string)
  (w : World) :
  let update :=
    pipedriveRequest (config (service w)) "PUT"
      ("/persons/" +:+ strconv.FormatInt personID)
      (Some (callDataFields transcript duration date)) in
  let before :=
    match newRequestError env update with Some _ => [] | None => [update] end in
  exists r,
    attempt (UpdatePersonWithCallData env personID transcript duration date) w
    = (Ok r, afterSending w before).
Proof.
  cbn zeta. unfold UpdatePersonWithCallData, attempt, wrap, bind. cbn zeta.
  rewrite makePipedriveRequest_run. cbn zeta.
  destruct (newRequestError env _).
  - rewrite afterSending_nil. eauto.
  - destruct (transport env _ _) as [e|st bs re]; [eauto|].
    cbn beta iota. destruct (negb (st =? 200)); eauto.
Qed.

Lemma frame_handlers (env : Env) (cfg : Config) (personID : Z)
  (payload : RetellWebhookPayload) (callTime : Time) :
  frame cfg (toCRM cfg) (handleCallStarted env personID payload callTime)
  /\ frame cfg (toCRM cfg) (handleCallEnded env personID payload callTime)
  /\ frame cfg (toCRM cfg) (handleCallCompleted env personID payload callTime)
  /\ frame cfg (toCRM cfg) (handleCallHangup env personID payload callTime)
  /\ frame cfg (toCRM cfg) (handleCallOptout env personID payload callTime).
Proof.
  unfold handleCallStarted, handleCallEnded, handleCallCompleted, handleCallHangup,
    handleCallOptout.
  split; [|split; [|split; [|split]]]; cbn zeta; crm_frame.
Qed.

Lemma frame_ProcessRetellCall (env : Env) (lib : Lib) (cfg : Config)
  (payload : RetellWebhookPayload) :
  frame cfg (toCRM cfg) (ProcessRetellCall env lib payload).
Proof.
  unfold ProcessRetellCall. apply frame_getConfig.
  destruct (HasPipedriveConfig cfg); [|apply frame_ret].
  destruct (parseTime lib _) as [callTime|e]; [|apply frame_fail].
  apply frame_bind; [crm_frame|]. intros contact.
  destruct (strconv.Atoi _) as [personID|]; [|apply frame_fail].
  destruct (frame_handlers env cfg personID payload callTime) as (H1 & H2 & H3 & H4 & H5).
  repeat (destruct (String.eqb _ _); [assumption|]). apply frame_ret.
Qed.

(** X16: the call-event processor never touches the correlation store:
    however a run ends, the service is the one it started with, and every
    request it sent went to the CRM. *)
Theorem events_leave_store (env : Env) (lib : Lib) (payload : RetellWebhookPayload)
  (w : World) :
  let w' := snd (ProcessRetellCall env lib payload w) in
  service w' = service w
  /\ exists new, sent w' = sent w ++ new /\ Forall (toCRM (config (service w))) new.
Proof.
  cbn zeta.
  apply (frame_ProcessRetellCall env lib (config (service w)) payload w
           (fst (ProcessRetellCall env lib payload w)) _ eq_refl).
  apply surjective_pairing.
Qed.

(** X17: with the CRM configured, a call event whose timestamp does not
    parse is answered 500 with the parse error in the message, before
    anything is sent: no contact is looked up or created. *)
Theorem event_bad_timestamp (env : Env) (lib : Lib) (raw : string)
  (payload : RetellWebhookPayload) (w : World) (e : string) :
  bindRetell lib raw = Parsed payload ->
  Retell_CallID payload <> "" ->
  Retell_ContactPhone payload <> "" ->
  HasPipedriveConfig (config (service w)) = true ->
  parseTime lib (Retell_Timestamp payload) = Malformed e ->
  retellWebhook env lib raw w
  = (Ok {| StatusCode := 500; Success := false;
           Message := "Failed to process call: " +:+ "invalid timestamp format: " +:+ e;
           Data := [] |}, w).
Proof.
  intros Hbind Hid Hphone Hpd Hparse.
  unfold retellWebhook, RetellWebhookHandler. rewrite Hbind.
  rewrite (nonEmpty_true _ Hid), (nonEmpty_true _ Hphone). cbn [negb orb].
  assert (Hproc : ProcessRetellCall env lib payload w
                  = (Err ("invalid timestamp format: " +:+ e), w)).
  { unfold ProcessRetellCall, bind, getConfig. now rewrite Hpd, Hparse. }
  now rewrite (bind_Ok _ _ _ _ _ (attempt_Err _ _ _ _ Hproc)).
Qed.

Lemma event_bad_timestamp_witness :
  exists resp,
    retellWebhook onlineEnv sampleLib "late" freshWorld = (Ok resp, freshWorld)
    /\ StatusCode resp = 500.
Proof.
  eexists. split.
  - apply (event_bad_timestamp onlineEnv sampleLib "late"
             (retellPayloadAt "yesterday" "call_started") freshWorld
             "parsing time yesterday: cannot parse");
      try reflexivity; discriminate.
  - reflexivity.
Defined.

(** X18: [handleCallStarted] and [handleCallEnded] are best effort: they
    return nil whatever the CRM answers, having sent at most their one
    activity, which is pending ([done = 0]) for a started call and
    completed ([done = 1]) for an ended one. *)
Theorem started_and_ended_never_fail (env : Env) (personID : Z)
  (payload : RetellWebhookPayload) (callTime : Time) (w : World) :
  let started :=
    pipedriveRequest (config (service w)) "POST" "/activities"
      (Some (startedActivityData env personID payload callTime)) in
  let ended :=
    pipedriveRequest (config (service w)) "POST" "/activities"
      (Some (endedActivityData env personID payload callTime)) in
  handleCallStarted env personID payload callTime w
  = (Ok tt, match newRequestError env started with
            | Some _ => w
            | None => afterSending w [started]
            end)
  /\ handleCallEnded env personID payload callTime w
     = (Ok tt, match newRequestError env ended with
               | Some _ => w
               | None => afterSending w [ended]
               end)
  /\ field "done" (body started) = Some (JNumber 0)
  /\ field "done" (body ended) = Some (JNumber 1)
  /\ field "person_id" (body started) = Some (JNumber personID)
  /\ field "person_id" (body ended) = Some (JNumber personID).
Proof.
  cbn zeta. unfold handleCallStarted, handleCallEnded, attempt, bind. cbn zeta.
  rewrite !makePipedriveRequest_run. cbn zeta. unfold afterSending.
  split; [|split; [|repeat split]].
  - destruct (newRequestError env _); [reflexivity|].
    now destruct (transport env _ _).
  - destruct (newRequestError env _); [reflexivity|].
    now destruct (transport env _ _).
Qed.

(** X19: an event of a kind the processor does not know still has its
    contact looked up (and created when the CRM knows none), but no
    activity is logged for it: the processor returns nil right after the
    contact lookup. *)
Theorem unknown_event_logs_nothing (env : Env) (lib : Lib)
  (payload : RetellWebhookPayload) (w w1 : World) (callTime : Time) (contact : Contact)
  (personID : Z) :
  HasPipedriveConfig (config (service w)) = true ->
  parseTime lib (Retell_Timestamp payload) = Parsed callTime ->
  FindOrCreateContactByPhone env (Retell_ContactPhone payload) w = (Ok contact, w1) ->
  strconv.Atoi (contact_ID contact) = Some personID ->
  Retell_Event payload <> "call_started" ->
  Retell_Event payload <> "call_ended" ->
  Retell_Event payload <> "call.completed" ->
  Retell_Event payload <> "call.hangup" ->
  Retell_Event payload <> "call.optout" ->
  ProcessRetellCall env lib payload w = (Ok tt, w1).
Proof.
  intros Hpd Hparse Hfind Hatoi H1 H2 H3 H4 H5.
  apply String.eqb_neq in H1, H2, H3, H4, H5.
  unfold ProcessRetellCall. unfold bind at 1. unfold getConfig. rewrite Hpd, Hparse.
  rewrite (bind_Ok _ _ _ _ _ (wrap_Ok _ _ _ _ _ Hfind)), Hatoi.
  now rewrite H1, H2, H3, H4, H5.
Qed.

Lemma unknown_event_logs_nothing_witness :
  ProcessRetellCall crmOnlyEnv sampleLib (retellPayload "call_analyzed") freshWorld
  = (Ok tt,
     afterSending freshWorld
       [pipedriveRequest realConfig "GET"
          "/persons/search?term=+12125550100&fields=phone" None;
        pipedriveRequest realConfig "POST" "/persons"
          (Some (unknownCallerData "+12125550100"))]).
Proof.
  apply (unknown_event_logs_nothing crmOnlyEnv sampleLib (retellPayload "call_analyzed")
           freshWorld _ 1700000000 (contactOfPerson jane) 139);
    try reflexivity; discriminate.
Defined.

(** An opt-out, step by step: the update of the person's fields is
    attempted, then the label is put, then the activity is posted. *)
Lemma handleCallOptout_run (env : Env) (personID : Z) (payload : RetellWebhookPayload)
  (callTime : Time) (w : World) :
  let cfg := config (service w) in
  let update :=
    pipedriveRequest cfg "PUT" ("/persons/" +:+ strconv.FormatInt personID)
      (Some (callDataFields (Retell_Transcript payload) (Retell_Duration payload)
               (formatTime env "2006-01-02" callTime))) in
  let label :=
    pipedriveRequest cfg "PUT" ("/persons/" +:+ strconv.FormatInt personID)
      (Some optoutLabelData) in
  let activity :=
    pipedriveRequest cfg "POST" "/activities"
      (Some (optoutActivityData env personID payload callTime)) in
  let before :=
    match newRequestError env update with Some _ => [] | None => [update] end in
  newRequestError env label = None ->
  newRequestError env activity = None ->
  handleCallOptout env personID payload callTime w =
    match transport env (sent w ++ before) label with
    | DoError e =>
        (Err ("failed to mark as DNC: " +:+ "failed to make request: " +:+ e),
         afterSending w (before ++ [label]))
    | Response _ _ _ =>
        (match transport env (sent w ++ before ++ [label]) activity with
         | DoError e =>
             Err ("failed to create optout activity: "
                  +:+ "failed to make request: " +:+ e)
         | Response _ _ _ => Ok tt
         end,
         afterSending w (before ++ [label; activity]))
    end.
Proof.
  intros cfg update label activity before Hlabel Hact.
  destruct (attempt_update_run env personID (Retell_Transcript payload)
              (Retell_Duration payload) (formatTime env "2006-01-02" callTime) w)
    as [r Hupd]. cbn zeta in Hupd. fold cfg in Hupd. fold update in Hupd.
  fold before in Hupd.
  unfold handleCallOptout. rewrite (bind_Ok _ _ _ _ _ Hupd). cbn zeta.
  unfold wrap, bind. rewrite makePipedriveRequest_run. cbn zeta.
  cbn [afterSending service sent ticks config]. fold cfg. fold label.
  rewrite Hlabel.
  destruct (transport env (sent w ++ before) label) as [e|st bs re].
  - unfold afterSending. now rewrite <- app_assoc.
  - rewrite makePipedriveRequest_run. cbn zeta.
    cbn [afterSending service sent ticks config]. fold cfg. fold activity.
    rewrite Hact. rewrite <- app_assoc.
    unfold afterSending.
    destruct (transport env _ activity);
      cbn [fst snd]; unfold ret; rewrite <- !app_assoc; reflexivity.
Qed.

(** X20: on an opt-out the contact is labelled before the activity is
    written: when the label request fails to get through, the processor
    returns that error and the label request is the last one sent, so no
    opt-out activity is logged. *)
Theorem optout_label_failure (env : Env) (personID : Z) (payload : RetellWebhookPayload)
  (callTime : Time) (w : World) (e : string) :
  let cfg := config (service w) in
  let update :=
    pipedriveRequest cfg "PUT" ("/persons/" +:+ strconv.FormatInt personID)
      (Some (callDataFields (Retell_Transcript payload) (Retell_Duration payload)
               (formatTime env "2006-01-02" callTime))) in
  let label :=
    pipedriveRequest cfg "PUT" ("/persons/" +:+ strconv.FormatInt personID)
      (Some optoutLabelData) in
  let activity :=
    pipedriveRequest cfg "POST" "/activities"
      (Some (optoutActivityData env personID payload callTime)) in
  let before :=
    match newRequestError env update with Some _ => [] | None => [update] end in
  newRequestError env label = None ->
  newRequestError env activity = None ->
  transport env (sent w ++ before) label = DoError e ->
  handleCallOptout env personID payload callTime w
  = (Err ("failed to mark as DNC: " +:+ "failed to make request: " +:+ e),
     afterSending w (before ++ [label]))
  /\ field "label" (body label) = Some (JString "Do Not Contact").
Proof.
  intros cfg update label activity before Hlabel Hact Hresp.
  split; [|reflexivity].
  rewrite (handleCallOptout_run env personID payload callTime w Hlabel Hact).
  fold cfg. fold update. fold before. fold label. now rewrite Hresp.
Qed.

Lemma optout_label_failure_witness :
  fst (handleCallOptout offlineEnv 139 (retellPayload "call.optout") 1700000000
         freshWorld)
  = Err ("failed to mark as DNC: failed to make request: "
         +:+ "dial tcp: connection refused")
  /\ length (sent (snd (handleCallOptout offlineEnv 139 (retellPayload "call.optout")
                          1700000000 freshWorld))) = 2%nat.
Proof.
  destruct (optout_label_failure offlineEnv 139 (retellPayload "call.optout") 1700000000
              freshWorld "dial tcp: connection refused") as [Hrun _];
    try reflexivity.
  rewrite Hrun. split; reflexivity.
Defined.

(** X21: the opt-out does not look at the status of the label response:
    once the label and the activity requests are answered, with whatever
    status codes, the processor returns nil. *)
Theorem optout_ignores_label_status (env : Env) (personID : Z)
  (payload : RetellWebhookPayload) (callTime : Time) (w : World)
  (status1 status2 : Z) (bytes1 bytes2 : string) (readErr1 readErr2 : option string) :
  let cfg := config (service w) in
  let update :=
    pipedriveRequest cfg "PUT" ("/persons/" +:+ strconv.FormatInt personID)
      (Some (callDataFields (Retell_Transcript payload) (Retell_Duration payload)
               (formatTime env "2006-01-02" callTime))) in
  let label :=
    pipedriveRequest cfg "PUT" ("/persons/" +:+ strconv.FormatInt personID)
      (Some optoutLabelData) in
  let activity :=
    pipedriveRequest cfg "POST" "/activities"
      (Some (optoutActivityData env personID payload callTime)) in
  let before :=
    match newRequestError env update with Some _ => [] | None => [update] end in
  newRequestError env label = None ->
  newRequestError env activity = None ->
  transport env (sent w ++ before) label = Response status1 bytes1 readErr1 ->
  transport env (sent w ++ before ++ [label]) activity
  = Response status2 bytes2 readErr2 ->
  handleCallOptout env personID payload callTime w
  = (Ok tt, afterSending w (before ++ [label; activity])).
Proof.
  intros cfg update label activity before Hlabel Hact Hresp1 Hresp2.
  rewrite (handleCallOptout_run env personID payload callTime w Hlabel Hact).
  fold cfg. fold update. fold before. fold label. fold activity.
  now rewrite Hresp1, Hresp2.
Qed.

Lemma optout_ignores_label_status_witness :
  handleCallOptout notFoundEnv 139 (retellPayload "call.optout") 1700000000 freshWorld
  = (Ok tt,
     afterSending freshWorld
       [pipedriveRequest realConfig "PUT" "/persons/139"
          (Some (callDataFields "Agent: Hello" "00:02:15" "2006-01-02"));
        pipedriveRequest realConfig "PUT" "/persons/139" (Some optoutLabelData);
        pipedriveRequest realConfig "POST" "/activities"
          (Some (optoutActivityData notFoundEnv 139 (retellPayload "call.optout")
                   1700000000))]).
Proof.
  apply (optout_ignores_label_status notFoundEnv 139 (retellPayload "call.optout")
           1700000000 freshWorld 404 404 "{}" "{}" None None);
    reflexivity.
Defined.

(** X22: when the CRM answers the activity request with
    [success = false], a completed call is reported as an error, but a
    hang-up is reported as processed. *)
Theorem hangup_swallows_rejection (env : Env) (personID : Z)
  (payload : RetellWebhookPayload) (callTime : Time) (w : World)
  (answer : PipedriveActivityResponse) :
  let cfg := config (service w) in
  let update :=
    pipedriveRequest cfg "PUT" ("/persons/" +:+ strconv.FormatInt personID)
      (Some (callDataFields (Retell_Transcript payload) (Retell_Duration payload)
               (formatTime env "2006-01-02" callTime))) in
  let completed :=
    pipedriveRequest cfg "POST" "/activities"
      (Some (completedActivityData env personID payload callTime)) in
  let hangup :=
    pipedriveRequest cfg "POST" "/activities"
      (Some (hangupActivityData env personID payload callTime)) in
  let before :=
    match newRequestError env update with Some _ => [] | None => [update] end in
  activity_Success answer = false ->
  (forall status bytes readErr,
     newRequestError env completed = None ->
     transport env (sent w ++ before) completed = Response status bytes readErr ->
     decodeActivity env bytes = Parsed answer ->
     handleCallCompleted env personID payload callTime w
     = (Err "failed to create call activity in Pipedrive",
        afterSending w (before ++ [completed])))
  /\ (forall status bytes readErr,
        newRequestError env hangup = None ->
        transport env (sent w ++ before) hangup = Response status bytes readErr ->
        decodeActivity env bytes = Parsed answer ->
        handleCallHangup env personID payload callTime w
        = (Ok tt, afterSending w (before ++ [hangup]))).
Proof.
  intros cfg update completed hangup before Hrej.
  destruct (attempt_update_run env personID (Retell_Transcript payload)
              (Retell_Duration payload) (formatTime env "2006-01-02" callTime) w)
    as [r Hupd]. cbn zeta in Hupd. fold cfg in Hupd. fold update in Hupd.
  fold before in Hupd.
  split; intros status bytes readErr Hacc Hresp Hdec.
  - unfold handleCallCompleted. rewrite (bind_Ok _ _ _ _ _ Hupd). cbn zeta.
    unfold wrap, bind. rewrite makePipedriveRequest_run. cbn zeta.
    cbn [afterSending service sent ticks config]. fold cfg. fold completed.
    rewrite Hacc, Hresp. cbn [snd]. rewrite Hdec, Hrej. cbn [negb].
    unfold fail, afterSending. now rewrite <- app_assoc.
  - unfold handleCallHangup. rewrite (bind_Ok _ _ _ _ _ Hupd). cbn zeta.
    unfold wrap, bind. rewrite makePipedriveRequest_run. cbn zeta.
    cbn [afterSending service sent ticks config]. fold cfg. fold hangup.
    rewrite Hacc, Hresp. cbn [snd]. rewrite Hdec, Hrej.
    unfold ret, afterSending. now rewrite <- app_assoc.
Qed.

Lemma hangup_swallows_rejection_witness :
  fst (handleCallCompleted rejectingEnv 139 (retellPayload "call.completed") 1700000000
         freshWorld) = Err "failed to create call activity in Pipedrive"
  /\ fst (handleCallHangup rejectingEnv 139 (retellPayload "call.hangup") 1700000000
            freshWorld) = Ok tt.
Proof.
  destruct (hangup_swallows_rejection rejectingEnv 139 (retellPayload "call.completed")
              1700000000 freshWorld
              {| activity_Success := false; activity_Data := None |} eq_refl)
    as [Hc _].
  destruct (hangup_swallows_rejection rejectingEnv 139 (retellPayload "call.hangup")
              1700000000 freshWorld
              {| activity_Success := false; activity_Data := None |} eq_refl)
    as [_ Hh].
  rewrite (Hc 200 "{}" None eq_refl eq_refl eq_refl).
  rewrite (Hh 200 "{}" None eq_refl eq_refl eq_refl).
  split; reflexivity.
Defined.

(** ** The other handlers *)

(** X23: a call-event webhook whose body has an empty [call_id] or an
    empty [contact_phone] is answered 400 with [success = false] in the
    state the request arrived in, whatever the processor is (it is not
    run); a processor error is answered 500 with the error in the
    message, and a processed event 200. *)
Theorem retell_handler_answers (lib : Lib)
  (process : RetellWebhookPayload -> Go unit) (raw : string)
  (payload : RetellWebhookPayload) (w : World) :
  bindRetell lib raw = Parsed payload ->
  (Retell_CallID payload = "" \/ Retell_ContactPhone payload = "" ->
   exists resp,
     RetellWebhookHandler lib process raw w = (Ok resp, w)
     /\ StatusCode resp = 400 /\ Success resp = false)
  /\ (Retell_CallID payload <> "" -> Retell_ContactPhone payload <> "" ->
      forall w',
        (forall e, process payload w = (Err e, w') ->
         RetellWebhookHandler lib process raw w
         = (Ok {| StatusCode := 500; Success := false;
                  Message := "Failed to process call: " +:+ e; Data := [] |}, w'))
        /\ (process payload w = (Ok tt, w') ->
            exists resp,
              RetellWebhookHandler lib process raw w = (Ok resp, w')
              /\ StatusCode resp = 200 /\ Success resp = true)).
Proof.
  intros Hbind. unfold RetellWebhookHandler. rewrite Hbind. split.
  - intros [Hid|Hphone].
    + rewrite Hid. cbn [nonEmpty negb orb]. eexists.
      split; [reflexivity|]. split; reflexivity.
    + rewrite Hphone. cbn [nonEmpty negb]. rewrite orb_true_r. eexists.
      split; [reflexivity|]. split; reflexivity.
  - intros Hid Hphone w'.
    rewrite (nonEmpty_true _ Hid), (nonEmpty_true _ Hphone). cbn [negb orb]. split.
    + intros e Hproc. now rewrite (bind_Ok _ _ _ _ _ (attempt_Err _ _ _ _ Hproc)).
    + intros Hproc. rewrite (bind_Ok _ _ _ _ _ (attempt_Ok _ _ _ _ Hproc)).
      eexists. split; [reflexivity|]. split; reflexivity.
Qed.

Lemma retell_handler_answers_witness :
  exists resp,
    retellWebhook onlineEnv sampleLib "{}" freshWorld = (Ok resp, freshWorld)
    /\ StatusCode resp = 400 /\ Success resp = false.
Proof.
  apply (retell_handler_answers sampleLib (ProcessRetellCall onlineEnv sampleLib) "{}"
           _ freshWorld eq_refl).
  left. reflexivity.
Defined.

(** X24: a call-analyzed webhook with an empty [call.call_id] is answered
    400 without the processor being run; an error of the processor is
    answered 500 with the error in the message. *)
Theorem analyzed_handler_answers (lib : Lib)
  (process : RetellCallAnalyzedPayload -> Go unit) (raw : string)
  (payload : RetellCallAnalyzedPayload) (w : World) :
  bindAnalyzed lib raw = Parsed payload ->
  (Call_CallID payload = "" ->
   exists resp,
     RetellCallAnalyzedHandler lib process raw w = (Ok resp, w)
     /\ StatusCode resp = 400 /\ Success resp = false)
  /\ (Call_CallID payload <> "" ->
      forall w' e,
        process payload w = (Err e, w') ->
        RetellCallAnalyzedHandler lib process raw w
        = (Ok {| StatusCode := 500; Success := false;
                 Message := "Failed to process call analyzed: " +:+ e;
                 Data := [] |}, w')).
Proof.
  intros Hbind. unfold RetellCallAnalyzedHandler. rewrite Hbind. split.
  - intros Hid. rewrite Hid. cbn [nonEmpty negb]. eexists.
    split; [reflexivity|]. split; reflexivity.
  - intros Hid w' e Hproc. rewrite (nonEmpty_true _ Hid). cbn [negb].
    now rewrite (bind_Ok _ _ _ _ _ (attempt_Err _ _ _ _ Hproc)).
Qed.

Lemma analyzed_handler_answers_witness :
  exists resp w',
    analyzedWebhook offlineEnv sampleLib "call" freshWorld = (Ok resp, w')
    /\ StatusCode resp = 500
    /\ Message resp
       = "Failed to process call analyzed: failed to find/create contact: "
         +:+ "failed to search contact: failed to make request: "
         +:+ "dial tcp: connection refused".
Proof.
  destruct (analyzed_handler_answers sampleLib (ProcessRetellCallAnalyzed offlineEnv)
              "call" analyzedPayload freshWorld eq_refl) as [_ Herr].
  assert (Hproc : ProcessRetellCallAnalyzed offlineEnv analyzedPayload freshWorld
                  = (Err ("failed to find/create contact: failed to search contact: "
                          +:+ "failed to make request: dial tcp: connection refused"),
                     afterSending freshWorld [unknownSearchRequest realConfig]))
    by reflexivity.
  eexists. eexists. split.
  - unfold analyzedWebhook. apply (Herr ltac:(discriminate) _ _ Hproc).
  - split; reflexivity.
Defined.

(** X25: an appointment webhook without attendees, or with an empty
    start time or location, is answered 400 in the state the request
    arrived in, whatever the processor is: the processor, which reads the
    first attendee, only ever runs on a payload that has one. *)
Theorem cal_handler_validation (lib : Lib) (process : CalWebhookPayload -> Go unit)
  (raw : string) (payload : CalWebhookPayload) (w : World) :
  bindCal lib raw = Parsed payload ->
  Payload_Attendees payload = []
  \/ Payload_StartTime payload = "" \/ Payload_Location payload = "" ->
  exists resp,
    CalWebhookHandler lib process raw w = (Ok resp, w)
    /\ StatusCode resp = 400 /\ Success resp = false.
Proof.
  intros Hbind Hbad. unfold CalWebhookHandler. rewrite Hbind.
  destruct (Payload_Attendees payload) as [|a rest].
  - eexists. split; [reflexivity|]. split; reflexivity.
  - destruct Hbad as [Hnil|[Hstart|Hloc]]; [discriminate| |].
    + rewrite Hstart. cbn [nonEmpty negb orb]. eexists.
      split; [reflexivity|]. split; reflexivity.
    + rewrite Hloc. cbn [nonEmpty negb]. rewrite orb_true_r. eexists.
      split; [reflexivity|]. split; reflexivity.
Qed.

Lemma cal_handler_validation_witness :
  exists resp,
    CalWebhookHandler sampleLib (fun _ => panic) "{}" freshWorld = (Ok resp, freshWorld)
    /\ StatusCode resp = 400 /\ Success resp = false.
Proof.
  apply (cal_handler_validation sampleLib (fun _ => panic) "{}" (calPayload [])
           freshWorld eq_refl).
  left. reflexivity.
Defined.

(** ** Contacts by e-mail and leads *)

Ltac step_more :=
  first
    [ step
    | match goal with
      | |- context [match decodeLeads ?l ?b with _ => _ end] =>
          destruct (decodeLeads l b) eqn:?
      | |- context [match leads_Success ?x with _ => _ end] =>
          destruct (leads_Success x) eqn:?
      | |- context [match leads_Items ?x with _ => _ end] =>
          destruct (leads_Items x) eqn:?
      end ].



(** X27: looking for a lead by e-mail is not a pure search: when the CRM
    knows no person with that address, the lookup creates one, with an
    empty name, as its second request. *)
Theorem lead_search_creates_contact (env : Env) (lib : Lib) (email : string) (w : World)
  (status : Z) (bytes : string) (readErr : option string)
  (found : PipedrivePersonSearchResponse) :
  HasPipedriveConfig (config (service w)) = true ->
  let search :=
    pipedriveRequest (config (service w)) "GET"
      ("/persons/search?term=" +:+ QueryEscape lib email +:+ "&fields=email") None in
  let create :=
    pipedriveRequest (config (service w)) "POST" "/persons"
      (Some (JObject [("name", JString "");
                      ("email", JArray [JObject [("value", JString email)]])])) in
  newRequestError env search = None ->
  transport env (sent w) search = Response status bytes readErr ->
  decodeSearch env bytes = Parsed found ->
  search_Success found = false \/ search_Items found = [] ->
  newRequestError env create = None ->
  exists rest,
    sent (snd (FindLeadByEmail env lib email w)) = sent w ++ search :: create :: rest.
Proof.
  intros Hpd search create Hacc Hresp Hdec Hnone Hacc2. subst search create.
  unfold FindLeadByEmail. unfold bind at 1. unfold getConfig. rewrite Hpd. cbn [negb].
  unfold FindOrCreateContactByEmail. cbn zeta. unfold wrap, bind.
  rewrite makePipedriveRequest_run. cbn zeta. rewrite Hacc, Hresp.
  cbn beta iota. cbn [snd]. rewrite Hdec.
  assert (Hgo : forall A (k1 : PipedrivePerson -> A) (k2 : A),
             match search_Success found, search_Items found with
             | true, person :: _ => k1 person
             | _, _ => k2
             end = k2).
  { intros A k1 k2. destruct Hnone as [-> | ->]; [reflexivity|].
    now destruct (search_Success found). }
  rewrite Hgo. rewrite makePipedriveRequest_run. cbn zeta.
  cbn [service sent ticks config]. rewrite Hacc2.
  repeat step_more; (eexists; cbn [snd sent]; sent_eq).
Qed.

Lemma lead_search_creates_contact_witness :
  exists rest,
    sent (snd (FindLeadByEmail crmOnlyEnv sampleLib "jane@example.com" freshWorld))
    = pipedriveRequest realConfig "GET"
        "/persons/search?term=jane%40example.com&fields=email" None
      :: pipedriveRequest realConfig "POST" "/persons"
           (Some (JObject [("name", JString "");
                           ("email",
                            JArray [JObject [("value", JString "jane@example.com")]])]))
      :: rest.
Proof.
  apply (lead_search_creates_contact crmOnlyEnv sampleLib "jane@example.com" freshWorld
           200 "{}" None
           {| search_Success := true; search_Data := None; search_Items := [] |});
    try reflexivity. right. reflexivity.
Defined.

(** X28: when the CRM answers a contact creation with [success] and no
    person ([data] null), the lookup by phone returns an error, but the
    lookup by e-mail, which lacks the nil test, panics. *)
Theorem create_without_person (env : Env) (lib : Lib) (phone email name : string)
  (w : World) (answer : PipedrivePersonResponse) :
  HasPipedriveConfig (config (service w)) = true ->
  (forall bytes, decodeSearch env bytes
                 = Parsed {| search_Success := true; search_Data := None;
                             search_Items := [] |}) ->
  (forall bytes, decodePerson env bytes = Parsed answer) ->
  person_Success answer = true ->
  person_Data answer = None ->
  (forall req, newRequestError env req = None) ->
  (forall history req, exists status bytes readErr,
      transport env history req = Response status bytes readErr) ->
  fst (FindOrCreateContactByPhone env phone w)
  = Err "failed to create contact in Pipedrive"
  /\ fst (FindOrCreateContactByEmail env lib email name w) = Panic.
Proof.
  intros Hpd Hsearch Hperson Hsucc Hnil Hacc Hresp. split.
  - unfold FindOrCreateContactByPhone. unfold bind at 1. unfold getConfig. rewrite Hpd.
    cbn zeta. unfold wrap, bind. rewrite makePipedriveRequest_run. cbn zeta.
    rewrite Hacc. destruct (Hresp (sent w) (pipedriveRequest (config (service w)) "GET"
                              ("/persons/search?term=" +:+ phone +:+ "&fields=phone")
                              None)) as (st & bs & re & ->).
    cbn beta iota. rewrite Hsearch. cbn [search_Success search_Items].
    rewrite makePipedriveRequest_run. cbn zeta. rewrite Hacc.
    cbn [service sent ticks config].
    match goal with |- context [transport env ?h ?r] =>
      destruct (Hresp h r) as (st2 & bs2 & re2 & ->) end.
    cbn beta iota. rewrite Hperson, Hsucc, Hnil. reflexivity.
  - unfold FindOrCreateContactByEmail. cbn zeta. unfold wrap, bind.
    rewrite makePipedriveRequest_run. cbn zeta.
    rewrite Hacc. destruct (Hresp (sent w) (pipedriveRequest (config (service w)) "GET"
                              ("/persons/search?term=" +:+ QueryEscape lib email
                               +:+ "&fields=email") None)) as (st & bs & re & ->).
    cbn beta iota. rewrite Hsearch. cbn [search_Success search_Items].
    rewrite makePipedriveRequest_run. cbn zeta. rewrite Hacc.
    cbn [service sent ticks config].
    match goal with |- context [transport env ?h ?r] =>
      destruct (Hresp h r) as (st2 & bs2 & re2 & ->) end.
    cbn beta iota. rewrite Hperson, Hsucc. cbn [negb]. rewrite Hnil. reflexivity.
Qed.

Lemma create_without_person_witness :
  fst (FindOrCreateContactByPhone
         (withPersonAnswer onlineEnv {| person_Success := true; person_Data := None |})
         "+12125550100" freshWorld)
  = Err "failed to create contact in Pipedrive"
  /\ fst (FindOrCreateContactByEmail
            (withPersonAnswer onlineEnv {| person_Success := true; person_Data := None |})
            sampleLib "jane@example.com" "Jane" freshWorld) = Panic.
Proof.
  apply (create_without_person
           (withPersonAnswer onlineEnv {| person_Success := true; person_Data := None |})
           sampleLib "+12125550100" "jane@example.com" "Jane" freshWorld
           {| person_Success := true; person_Data := None |});
    try reflexivity.
  intros history req. exists 200, "{}", None. reflexivity.
Defined.
